(** * tinc: the daemon's process lifecycle (tincd.c) and the traffic
      observer (top.c)

    The development embeds three programs of the repository:

    - [Tincd]: option parsing, naming, PID-file locking, detaching, the signal
      handlers and [main] of tincd.c, as functions on an explicit process
      state in a small state-and-exit monad, with a machine for the signals
      that arrive while the daemon, a handler or the supervisor parent runs;
    - [Top] and [TopUI]: [update] of top.c, the observer's reader of a
      traffic dump, with [strcmp], the [sscanf] conversions of its format
      and the node list; the comparison of [redraw] and the keys of [top];
    - [Genauth]: [main] of genauth.c.

    Calls that leave the program (system calls, syslog, the network layer)
    are recorded as events of a trace, in program order. *)

From Stdlib Require Import ZArith List String Ascii Bool Lia.
From Stdlib Require Import DecimalString Zbitwise.
Import ListNotations.

Local Open Scope Z_scope.

(** ** Text *)

Definition nl : string := String "010"%char EmptyString.

Local Infix "+++" := String.append (at level 60, right associativity).

(** printf's [%d] on a value that fits its type. *)
Definition string_of_Z (z : Z) : string := NilZero.string_of_int (Z.to_int z).

(** ** Events and exit status, shared by both programs *)

Inductive priority := LOG_ERR | LOG_NOTICE | LOG_INFO.

Inductive event :=
| Stdout (s : string)
| Stderr (s : string)
| Perror (s : string)
| Syslog (prio : priority) (s : string)
| Openlog (ident : option string)
| Closelog
| Kill (pid sig : Z)
| Unlink (path : option string)
| WritePid (path : option string) (pid : Z)
| AddConfigVal (optarg : string)
| ReadConfigFile (path : option string)
| SecurityInit
| SetupNetworkConnections
| CloseNetworkConnections
| MainLoop
| DumpConnList
| RegenerateKeys
| Fork
| Sleep (seconds : Z)
| OpenTty
| IoctlNotty
| CloseTty
| Setsid
| Chdir (dir : string)
| SetXallocFailFunc
| Execvp (file : option string) (argv : list string)
| Sendline (s : string)
| Endwin.

Inductive status :=
| Running
| Exited (code : Z)
| Execed (argv : list string)
| Killed (sig : Z).

Definition is_execvp (ev : event) : bool :=
  match ev with Execvp _ _ => true | _ => false end.

Definition is_unlink (ev : event) : bool :=
  match ev with Unlink _ => true | _ => false end.

Definition is_read_config (ev : event) : bool :=
  match ev with ReadConfigFile _ => true | _ => false end.

(** Events that reach into the connection registry and the topology. *)
Definition touches_registry (ev : event) : bool :=
  match ev with
  | SetupNetworkConnections | CloseNetworkConnections
  | DumpConnList | RegenerateKeys => true
  | _ => false
  end.

(** * tincd.c *)

Module Tincd.

(** ** Signals *)

(** Signal and error numbers as on Linux. *)
Definition SIGHUP : Z := 1.
Definition SIGINT : Z := 2.
Definition SIGQUIT : Z := 3.
Definition SIGKILL : Z := 9.
Definition SIGUSR1 : Z := 10.
Definition SIGSEGV : Z := 11.
Definition SIGUSR2 : Z := 12.
Definition SIGPIPE : Z := 13.
Definition SIGALRM : Z := 14.
Definition SIGTERM : Z := 15.
Definition SIGCHLD : Z := 17.
Definition SIGCONT : Z := 18.
Definition SIGSTOP : Z := 19.
Definition SIGTSTP : Z := 20.
Definition SIGTTIN : Z := 21.
Definition SIGTTOU : Z := 22.
Definition SIGURG : Z := 23.
Definition SIGWINCH : Z := 28.
Definition ESRCH : Z := 3.

(** The signal handlers of tincd.c, as the values [signal] is given. *)
Inductive handler_id :=
| H_sigterm_handler
| H_sigquit_handler
| H_sigsegv_square
| H_sigsegv_handler
| H_sighup_handler
| H_sigint_handler
| H_sigusr1_handler
| H_sigusr2_handler
| H_sighuh
| H_parent_exit.

Inductive disposition :=
| SIG_DFL
| SIG_IGN
| Handler (h : handler_id).

(** ** The environment

    What the build and the operating system answer: the constants of
    config.h, and the results of the calls whose outcome the program
    branches on. *)
Record env := mkEnv {
  PACKAGE : string;
  VERSION : string;
  CONFDIR : string;
  DATE : string;
  TIME : string;
  geteuid : Z;
  getpid : Z;
  (** result of [fork]: negative on failure, 0 in the child, the child's pid
      in the parent *)
  fork : Z;
  (** errno left by [kill pid sig], 0 when the call succeeds *)
  kill_errno : Z -> Z -> Z;
  (** whether the PID file can be created *)
  write_pid_ok : bool;
  (** whether add_config_val accepts a timeout value *)
  add_config_val_ok : string -> bool;
  read_config_file_ret : Z;
  security_init_ret : Z;
  setup_network_connections_ret : Z;
  (** result of opening /dev/tty *)
  tty_fd : Z;
  ioctl_ret : Z;
  setsid_ret : Z;
  (** whether [execvp] replaces the process image *)
  execvp_ok : bool
}.

(** ** The process state: the globals of tincd.c, the globals it reads from
    the libraries, and the operating system's view of the process. *)
Record proc := mkProc {
  program_name : option string;
  show_help : Z;
  show_version : Z;
  kill_tincd : Z;
  do_detach : Z;
  confbase : option string;
  configfilename : option string;
  identname : option string;
  netname : option string;
  pidfilename : option string;
  ppid : Z;
  g_argv : list string;
  debug_lvl : Z;
  cp_file : option string;
  cp_line : Z;
  total_tap_out : Z;
  total_socket_out : Z;
  total_tap_in : Z;
  total_socket_in : Z;
  (** signal dispositions *)
  sigtable : Z -> disposition;
  (** the PID files on disk: the pid each holds *)
  pidfiles : string -> option Z;
  trace : list event;
  st : status
}.

Definition set_program_name v p :=
  mkProc v (show_help p) (show_version p) (kill_tincd p) (do_detach p)
    (confbase p) (configfilename p) (identname p) (netname p) (pidfilename p)
    (ppid p) (g_argv p) (debug_lvl p) (cp_file p) (cp_line p)
    (total_tap_out p) (total_socket_out p) (total_tap_in p) (total_socket_in p)
    (sigtable p) (pidfiles p) (trace p) (st p).
Definition set_show_help v p :=
  mkProc (program_name p) v (show_version p) (kill_tincd p) (do_detach p)
    (confbase p) (configfilename p) (identname p) (netname p) (pidfilename p)
    (ppid p) (g_argv p) (debug_lvl p) (cp_file p) (cp_line p)
    (total_tap_out p) (total_socket_out p) (total_tap_in p) (total_socket_in p)
    (sigtable p) (pidfiles p) (trace p) (st p).
Definition set_show_version v p :=
  mkProc (program_name p) (show_help p) v (kill_tincd p) (do_detach p)
    (confbase p) (configfilename p) (identname p) (netname p) (pidfilename p)
    (ppid p) (g_argv p) (debug_lvl p) (cp_file p) (cp_line p)
    (total_tap_out p) (total_socket_out p) (total_tap_in p) (total_socket_in p)
    (sigtable p) (pidfiles p) (trace p) (st p).
Definition set_kill_tincd v p :=
  mkProc (program_name p) (show_help p) (show_version p) v (do_detach p)
    (confbase p) (configfilename p) (identname p) (netname p) (pidfilename p)
    (ppid p) (g_argv p) (debug_lvl p) (cp_file p) (cp_line p)
    (total_tap_out p) (total_socket_out p) (total_tap_in p) (total_socket_in p)
    (sigtable p) (pidfiles p) (trace p) (st p).
Definition set_do_detach v p :=
  mkProc (program_name p) (show_help p) (show_version p) (kill_tincd p) v
    (confbase p) (configfilename p) (identname p) (netname p) (pidfilename p)
    (ppid p) (g_argv p) (debug_lvl p) (cp_file p) (cp_line p)
    (total_tap_out p) (total_socket_out p) (total_tap_in p) (total_socket_in p)
    (sigtable p) (pidfiles p) (trace p) (st p).
Definition set_confbase v p :=
  mkProc (program_name p) (show_help p) (show_version p) (kill_tincd p)
    (do_detach p) v (configfilename p) (identname p) (netname p)
    (pidfilename p) (ppid p) (g_argv p) (debug_lvl p) (cp_file p) (cp_line p)
    (total_tap_out p) (total_socket_out p) (total_tap_in p) (total_socket_in p)
    (sigtable p) (pidfiles p) (trace p) (st p).
Definition set_configfilename v p :=
  mkProc (program_name p) (show_help p) (show_version p) (kill_tincd p)
    (do_detach p) (confbase p) v (identname p) (netname p) (pidfilename p)
    (ppid p) (g_argv p) (debug_lvl p) (cp_file p) (cp_line p)
    (total_tap_out p) (total_socket_out p) (total_tap_in p) (total_socket_in p)
    (sigtable p) (pidfiles p) (trace p) (st p).
Definition set_identname v p :=
  mkProc (program_name p) (show_help p) (show_version p) (kill_tincd p)
    (do_detach p) (confbase p) (configfilename p) v (netname p)
    (pidfilename p) (ppid p) (g_argv p) (debug_lvl p) (cp_file p) (cp_line p)
    (total_tap_out p) (total_socket_out p) (total_tap_in p) (total_socket_in p)
    (sigtable p) (pidfiles p) (trace p) (st p).
Definition set_netname v p :=
  mkProc (program_name p) (show_help p) (show_version p) (kill_tincd p)
    (do_detach p) (confbase p) (configfilename p) (identname p) v
    (pidfilename p) (ppid p) (g_argv p) (debug_lvl p) (cp_file p) (cp_line p)
    (total_tap_out p) (total_socket_out p) (total_tap_in p) (total_socket_in p)
    (sigtable p) (pidfiles p) (trace p) (st p).
Definition set_pidfilename v p :=
  mkProc (program_name p) (show_help p) (show_version p) (kill_tincd p)
    (do_detach p) (confbase p) (configfilename p) (identname p) (netname p) v
    (ppid p) (g_argv p) (debug_lvl p) (cp_file p) (cp_line p)
    (total_tap_out p) (total_socket_out p) (total_tap_in p) (total_socket_in p)
    (sigtable p) (pidfiles p) (trace p) (st p).
Definition set_ppid v p :=
  mkProc (program_name p) (show_help p) (show_version p) (kill_tincd p)
    (do_detach p) (confbase p) (configfilename p) (identname p) (netname p)
    (pidfilename p) v (g_argv p) (debug_lvl p) (cp_file p) (cp_line p)
    (total_tap_out p) (total_socket_out p) (total_tap_in p) (total_socket_in p)
    (sigtable p) (pidfiles p) (trace p) (st p).
Definition set_g_argv v p :=
  mkProc (program_name p) (show_help p) (show_version p) (kill_tincd p)
    (do_detach p) (confbase p) (configfilename p) (identname p) (netname p)
    (pidfilename p) (ppid p) v (debug_lvl p) (cp_file p) (cp_line p)
    (total_tap_out p) (total_socket_out p) (total_tap_in p) (total_socket_in p)
    (sigtable p) (pidfiles p) (trace p) (st p).
Definition set_debug_lvl v p :=
  mkProc (program_name p) (show_help p) (show_version p) (kill_tincd p)
    (do_detach p) (confbase p) (configfilename p) (identname p) (netname p)
    (pidfilename p) (ppid p) (g_argv p) v (cp_file p) (cp_line p)
    (total_tap_out p) (total_socket_out p) (total_tap_in p) (total_socket_in p)
    (sigtable p) (pidfiles p) (trace p) (st p).
Definition set_sigtable v p :=
  mkProc (program_name p) (show_help p) (show_version p) (kill_tincd p)
    (do_detach p) (confbase p) (configfilename p) (identname p) (netname p)
    (pidfilename p) (ppid p) (g_argv p) (debug_lvl p) (cp_file p) (cp_line p)
    (total_tap_out p) (total_socket_out p) (total_tap_in p) (total_socket_in p)
    v (pidfiles p) (trace p) (st p).
Definition set_pidfiles v p :=
  mkProc (program_name p) (show_help p) (show_version p) (kill_tincd p)
    (do_detach p) (confbase p) (configfilename p) (identname p) (netname p)
    (pidfilename p) (ppid p) (g_argv p) (debug_lvl p) (cp_file p) (cp_line p)
    (total_tap_out p) (total_socket_out p) (total_tap_in p) (total_socket_in p)
    (sigtable p) v (trace p) (st p).
Definition set_trace v p :=
  mkProc (program_name p) (show_help p) (show_version p) (kill_tincd p)
    (do_detach p) (confbase p) (configfilename p) (identname p) (netname p)
    (pidfilename p) (ppid p) (g_argv p) (debug_lvl p) (cp_file p) (cp_line p)
    (total_tap_out p) (total_socket_out p) (total_tap_in p) (total_socket_in p)
    (sigtable p) (pidfiles p) v (st p).
Definition set_st v p :=
  mkProc (program_name p) (show_help p) (show_version p) (kill_tincd p)
    (do_detach p) (confbase p) (configfilename p) (identname p) (netname p)
    (pidfilename p) (ppid p) (g_argv p) (debug_lvl p) (cp_file p) (cp_line p)
    (total_tap_out p) (total_socket_out p) (total_tap_in p) (total_socket_in p)
    (sigtable p) (pidfiles p) (trace p) v.

(** The process as the loader leaves it: the initialisers of the globals,
    every signal at its default, nothing printed yet. *)
Definition start (files : string -> option Z) : proc :=
  {| program_name := None;
     show_help := 0; show_version := 0; kill_tincd := 0; do_detach := 1;
     confbase := None; configfilename := None; identname := None;
     netname := None; pidfilename := None;
     ppid := 0; g_argv := [];
     debug_lvl := 0; cp_file := None; cp_line := 0;
     total_tap_out := 0; total_socket_out := 0;
     total_tap_in := 0; total_socket_in := 0;
     sigtable := fun _ => SIG_DFL;
     pidfiles := files;
     trace := [];
     st := Running |}.

(** ** A state monad with exit

    [Halt] is the end of the process image: a call of [exit], a [return]
    from [main], or a successful [execvp]. *)
Inductive res (A : Type) :=
| Val (a : A)
| Halt.
Arguments Val {A} a.
Arguments Halt {A}.

Definition M (A : Type) : Type := proc -> res A * proc.

Definition ret {A} (a : A) : M A := fun p => (Val a, p).

Definition bind {A B} (m : M A) (k : A -> M B) : M B :=
  fun p => match m p with
           | (Val a, p') => k a p'
           | (Halt, p') => (Halt, p')
           end.

Notation "x <- m ;; k" := (bind m (fun x => k))
  (at level 61, m at next level, right associativity).
Notation "m ;; k" := (bind m (fun _ => k))
  (at level 61, right associativity).

Definition get : M proc := fun p => (Val p, p).
Definition modify (f : proc -> proc) : M unit := fun p => (Val tt, f p).
Definition emit (ev : event) : M unit :=
  modify (fun p => set_trace (trace p ++ [ev]) p).
Definition exit {A} (c : Z) : M A := fun p => (Halt, set_st (Exited c) p).
Definition when (b : bool) (m : M unit) : M unit := if b then m else ret tt.

Definition run {A} (m : M A) (p : proc) : proc := snd (m p).

(** ** The program, in an environment *)

Section Program.

Variable e : env.

(** printf's [%s] *)
Definition pr (s : option string) : string :=
  match s with Some x => x | None => "(null)"%string end.

Definition chr (c : ascii) : Z := Z.of_nat (nat_of_ascii c).

(** *** Calls into the C library and the operating system *)

Definition fprintf_stderr (s : string) : M unit := emit (Stderr s).
Definition printf (s : string) : M unit := emit (Stdout s).
Definition perror (s : string) : M unit := emit (Perror s).
Definition syslog (prio : priority) (s : string) : M unit :=
  emit (Syslog prio s).

(** [kill]: the call, its result and the errno it leaves when it returns.
    The delivery of the signal is no part of the call: a signal that reaches
    the caller itself (its own pid, or process group 0) is an input of the
    signal machine below. *)
Definition kill (pid sig : Z) : M (Z * Z) :=
  emit (Kill pid sig) ;;
  let errno := kill_errno e pid sig in
  ret (if errno =? 0 then 0 else -1, errno).

(** [signal] refuses (SIG_ERR) numbers that are no signal, SIGKILL and
    SIGSTOP; [false] is SIG_ERR. *)
Definition signal_valid (sig : Z) : bool :=
  (1 <=? sig) && (sig <=? 64) && negb (sig =? SIGKILL) && negb (sig =? SIGSTOP).

Definition signal (sig : Z) (d : disposition) : M bool :=
  if signal_valid sig then
    modify (fun p => set_sigtable
                       (fun s => if s =? sig then d else sigtable p s) p) ;;
    ret true
  else ret false.

(** [execvp] returns only when it fails. *)
Definition execvp (file : option string) (argv : list string) : M Z :=
  emit (Execvp file argv) ;;
  if execvp_ok e then fun p => (Halt, set_st (Execed argv) p) else ret (-1).

Definition sleep (seconds : Z) : M unit := emit (Sleep seconds).

(** *** lib/pidfile.c *)

Definition file_pid (path : option string) (p : proc) : option Z :=
  match path with Some f => pidfiles p f | None => None end.

(** Modelled from the spec: read_pid of lib/pidfile.c, which is not under
    src/. The PID file holds a decimal PID; the result is that pid, 0 when
    no PID file can be read. *)
Definition read_pid (path : option string) : M Z :=
  p <- get ;;
  ret (match file_pid path p with Some pid => pid | None => 0 end).

(** Modelled from the spec: check_pid of lib/pidfile.c, which is not under
    src/. "Read any existing PID file; if the PID is alive (kill(pid,0)
    succeeds or returns with errno <> ESRCH), fail with AlreadyRunning":
    the live pid, 0 otherwise. *)
Definition check_pid (path : option string) : M Z :=
  pid <- read_pid path ;;
  if pid =? 0 then ret 0
  else
    r <- kill pid 0 ;;
    if negb (fst r =? 0) && (snd r =? ESRCH) then ret 0 else ret pid.

(** Modelled from the spec: write_pid of lib/pidfile.c, which is not under
    src/. "Atomically create-exclusive the PID file and write the current
    PID"; whether the file can be created ("if it's locked, write-protected, or whatever") is the
    environment's answer. The result is the pid written, 0 on failure. *)
Definition write_pid (path : option string) : M Z :=
  match path with
  | Some f =>
      if write_pid_ok e then
        emit (WritePid path (getpid e)) ;;
        modify (fun p => set_pidfiles
                  (fun x => if String.eqb x f then Some (getpid e)
                            else pidfiles p x) p) ;;
        ret (getpid e)
      else ret 0
  | None => ret 0
  end.

(** Modelled from the spec: remove_pid of lib/pidfile.c, which is not under
    src/: "unlink the file". *)
Definition remove_pid (path : option string) : M unit :=
  emit (Unlink path) ;;
  match path with
  | Some f =>
      modify (fun p => set_pidfiles
                (fun x => if String.eqb x f then None else pidfiles p x) p)
  | None => ret tt
  end.

(** *** conf.c and net.c

    These files are not under src/; their calls are events of the trace and
    their results the environment's answers. *)

(** Modelled from the spec: close_network_connections of net.c, which is not
    under src/. The shutdown steps are "close meta connections (sending
    TERMREQ first), tear down the data plane, unlink PID file, close syslog,
    exit": closing the connections and the data plane is this call, and the
    PID file is a step of its own ("the PID file is mutated only by C1
    (create) and C7 (unlink)"). *)
Definition close_network_connections : M unit := emit CloseNetworkConnections.

(** Modelled from the spec: setup_network_connections of net.c, which is not
    under src/: brings the plane up; non-zero on failure. *)
Definition setup_network_connections : M Z :=
  emit SetupNetworkConnections ;; ret (setup_network_connections_ret e).

(** Modelled from the spec: read_config_file of conf.c, which is not under
    src/: parses the configuration file; non-zero on failure. *)
Definition read_config_file (path : option string) : M Z :=
  emit (ReadConfigFile path) ;; ret (read_config_file_ret e).

(** Modelled from the spec: add_config_val of conf.c, which is not under
    src/, at TYPE_INT: [false] is the NULL it returns for a value that is
    no number. *)
Definition add_config_val (optarg : string) : M bool :=
  emit (AddConfigVal optarg) ;; ret (add_config_val_ok e optarg).

(** Modelled from the spec: security_init of encr.c, which is not under
    src/; non-zero on failure. *)
Definition security_init : M Z :=
  emit SecurityInit ;; ret (security_init_ret e).

(** Modelled from the spec: main_loop, dump_conn_list and regenerate_keys of
    net.c, which is not under src/: the multiplexer loop, the dump of the
    connection table to syslog and the forced key rotation. *)
Definition main_loop : M unit := emit MainLoop.
Definition dump_conn_list : M unit := emit DumpConnList.
Definition regenerate_keys : M unit := emit RegenerateKeys.

(** *** Straight-line code

    The handlers, [cleanup_and_exit] and the supervisor parent's branch of
    [detach] are sequences of calls whose results are not looked at. They
    are kept as lists of actions, so that the same code runs to its end in
    the monad and one call at a time in the signal machine below. *)

Inductive action :=
| ASyslog (prio : priority) (s : string)
| ASignal (sig : Z) (d : disposition)
| ASleep (seconds : Z)
| AExit (c : Z)
| AKill (pid sig : Z)
| ACloselog
| ACloseNetworkConnections
| ASetupNetworkConnections
| ARemovePid (path : option string)
| AExecvp (file : option string) (argv : list string)
| ADumpConnList
| ARegenerateKeys.

Definition exec_action (a : action) : M unit :=
  match a with
  | ASyslog prio s => syslog prio s
  | ASignal sig d => signal sig d ;; ret tt
  | ASleep n => sleep n
  | AExit c => exit c
  | AKill pid sig => kill pid sig ;; ret tt
  | ACloselog => emit Closelog
  | ACloseNetworkConnections => close_network_connections
  | ASetupNetworkConnections => setup_network_connections ;; ret tt
  | ARemovePid path => remove_pid path
  | AExecvp file argv => execvp file argv ;; ret tt
  | ADumpConnList => dump_conn_list
  | ARegenerateKeys => regenerate_keys
  end.

Fixpoint exec_actions (l : list action) : M unit :=
  match l with
  | [] => ret tt
  | a :: k => exec_action a ;; exec_actions k
  end.

(** Runs the code that the current globals give. *)
Definition call (code : proc -> list action) : M unit :=
  p <- get ;; exec_actions (code p).

(** Close network connections, and terminate neatly *)
Definition cleanup_and_exit (c : Z) (p : proc) : list action :=
  [ACloseNetworkConnections]
  ++ (if debug_lvl p >? 0
      then [ASyslog LOG_INFO
              ("Total bytes written: tap " +++ string_of_Z (total_tap_out p)
               +++ ", socket " +++ string_of_Z (total_socket_out p)
               +++ "; bytes read: tap " +++ string_of_Z (total_tap_in p)
               +++ ", socket " +++ string_of_Z (total_socket_in p) +++ ".")]
      else [])
  ++ [ACloselog; AKill (ppid p) SIGTERM; AExit c].

Definition sigterm_handler (a : Z) (p : proc) : list action :=
  (if debug_lvl p >? 0 then [ASyslog LOG_NOTICE "Got TERM signal"] else [])
  ++ cleanup_and_exit 0 p.

Definition sigquit_handler (a : Z) (p : proc) : list action :=
  (if debug_lvl p >? 0 then [ASyslog LOG_NOTICE "Got QUIT signal"] else [])
  ++ cleanup_and_exit 0 p.

Definition sigsegv_square (a : Z) (p : proc) : list action :=
  [ASyslog LOG_NOTICE "Got another SEGV signal: not restarting"; AExit 0].

Definition sigsegv_handler (a : Z) (p : proc) : list action :=
  [ASyslog LOG_NOTICE
     (match cp_file p with
      | Some f => "Got SEGV signal after " +++ f +++ " line "
                  +++ string_of_Z (cp_line p) +++ ". Trying to re-execute."
      | None => "Got SEGV signal; trying to re-execute."
      end);
   ASignal SIGSEGV (Handler H_sigsegv_square);
   ACloseNetworkConnections;
   ARemovePid (pidfilename p);
   AExecvp (hd_error (g_argv p)) (g_argv p)].

(** The FIXME of the source stands after the two calls: "read config-file
    and re-establish network connections". *)
Definition sighup_handler (a : Z) (p : proc) : list action :=
  (if debug_lvl p >? 0 then [ASyslog LOG_NOTICE "Got HUP signal"] else [])
  ++ [ACloseNetworkConnections; ASetupNetworkConnections].

Definition sigint_handler (a : Z) (p : proc) : list action :=
  (if debug_lvl p >? 0 then [ASyslog LOG_NOTICE "Got INT signal"] else [])
  ++ cleanup_and_exit 0 p.

Definition sigusr1_handler (a : Z) (p : proc) : list action :=
  [ADumpConnList].

Definition sigusr2_handler (a : Z) (p : proc) : list action :=
  (if debug_lvl p >? 1 then [ASyslog LOG_NOTICE "Forcing new keys"] else [])
  ++ [ARegenerateKeys].

Definition sighuh (a : Z) (p : proc) : list action :=
  [ASyslog LOG_NOTICE
     (match cp_file p with
      | Some f => "Got unexpected signal (" +++ string_of_Z a +++ ") after "
                  +++ f +++ " line " +++ string_of_Z (cp_line p) +++ "."
      | None => "Got unexpected signal (" +++ string_of_Z a +++ ")."
      end)].

Definition parent_exit (a : Z) (p : proc) : list action := [AExit 0].

Definition handler_body (h : handler_id) : Z -> proc -> list action :=
  match h with
  | H_sigterm_handler => sigterm_handler
  | H_sigquit_handler => sigquit_handler
  | H_sigsegv_square => sigsegv_square
  | H_sigsegv_handler => sigsegv_handler
  | H_sighup_handler => sighup_handler
  | H_sigint_handler => sigint_handler
  | H_sigusr1_handler => sigusr1_handler
  | H_sigusr2_handler => sigusr2_handler
  | H_sighuh => sighuh
  | H_parent_exit => parent_exit
  end.

(** [signal(sig, SIG_IGN) != SIG_ERR] guarding [signal(sig, handler)] *)
Definition signal_if_settable (sig : Z) (h : handler_id) : M unit :=
  ok <- signal sig SIG_IGN ;;
  when ok (signal sig (Handler h) ;; ret tt).

Definition setup_signals : M unit :=
  fold_right (fun i k => signal i (Handler H_sighuh) ;; k) (ret tt)
             (map Z.of_nat (seq 0 32)) ;;
  signal_if_settable SIGTERM H_sigterm_handler ;;
  signal_if_settable SIGQUIT H_sigquit_handler ;;
  signal_if_settable SIGSEGV H_sigsegv_handler ;;
  signal_if_settable SIGHUP H_sighup_handler ;;
  signal SIGPIPE SIG_IGN ;;
  signal_if_settable SIGINT H_sigint_handler ;;
  signal SIGUSR1 (Handler H_sigusr1_handler) ;;
  signal SIGUSR2 (Handler H_sigusr2_handler) ;;
  signal SIGCHLD (Handler H_parent_exit) ;;
  ret tt.

(** *** Options *)

Inductive flag_var := F_show_help | F_show_version | F_do_detach.

Record option_t := mkOption {
  name : string;
  has_arg : bool;
  flag : option flag_var;
  val : Z
}.

Definition long_options : list option_t :=
  [ mkOption "kill" false None (chr "k");
    mkOption "net" true None (chr "n");
    mkOption "timeout" true None (chr "p");
    mkOption "help" false (Some F_show_help) 1;
    mkOption "version" false (Some F_show_version) 1;
    mkOption "no-detach" false (Some F_do_detach) 0 ].

Definition set_flag (f : flag_var) (v : Z) : proc -> proc :=
  match f with
  | F_show_help => set_show_help v
  | F_show_version => set_show_version v
  | F_do_detach => set_do_detach v
  end.

(** What one call of getopt_long finds on the command line: a short option
    of "c:Ddkn:t:" (or '?' for what it does not know), or the index of an
    entry of [long_options]; [optarg] is the option's argument, if it takes
    one. The command line is given as the sequence of these finds. *)
Inductive getopt_ret :=
| Short (c : ascii) (optarg : string)
| Long (index : nat) (optarg : string).

(** The value getopt_long returns, after its store through the entry's flag
    pointer. *)
Definition getopt_long (o : getopt_ret) : M (Z * string) :=
  match o with
  | Short c a => ret (chr c, a)
  | Long i a =>
      match nth_error long_options i with
      | Some opt =>
          match flag opt with
          | Some f => modify (set_flag f (val opt)) ;; ret (0, a)
          | None => ret (val opt, a)
          end
      | None => ret (chr "?", a)
      end
  end.

Definition usage {A} (status : Z) : M A :=
  p <- get ;;
  (if negb (status =? 0) then
     fprintf_stderr ("Try `" +++ pr (program_name p)
                     +++ " --help' for more information." +++ nl)
   else
     printf ("Usage: " +++ pr (program_name p) +++ " [option]..." +++ nl +++ nl) ;;
     printf ("  -c, --config=FILE     Read configuration options from FILE." +++ nl
             +++ "  -D, --no-detach       Don't fork and detach." +++ nl
             +++ "  -d                    Increase debug level." +++ nl
             +++ "  -k, --kill            Attempt to kill a running tincd and exit." +++ nl
             +++ "  -n, --net=NETNAME     Connect to net NETNAME." +++ nl
             +++ "  -t, --timeout=TIMEOUT Seconds to wait before giving a timeout." +++ nl) ;;
     printf ("      --help            Display this help and exit." +++ nl
             +++ "      --version         Output version information and exit." +++ nl +++ nl) ;;
     printf ("Report bugs to zarq@iname.com." +++ nl)) ;;
  exit status.

(** The body of the switch on getopt_long's result. *)
Definition parse_option (r : Z) (optarg : string) : M unit :=
  if r =? 0 then ret tt
  else if r =? chr "c" then modify (set_configfilename (Some optarg))
  else if r =? chr "D" then modify (set_do_detach 0)
  else if r =? chr "d" then modify (fun p => set_debug_lvl (debug_lvl p + 1) p)
  else if r =? chr "k" then modify (set_kill_tincd 1)
  else if r =? chr "n" then modify (set_netname (Some optarg))
  else if r =? chr "t" then
    ok <- add_config_val optarg ;;
    if ok then ret tt
    else printf ("Invalid timeout value `" +++ optarg +++ "'." +++ nl) ;;
         usage 1
  else if r =? chr "?" then usage 1
  else ret tt.

Fixpoint parse_options (opts : list getopt_ret) : M unit :=
  match opts with
  | [] => ret tt
  | o :: rest =>
      ra <- getopt_long o ;;
      parse_option (fst ra) (snd ra) ;;
      parse_options rest
  end.

Definition memory_full (size : Z) : M unit :=
  p <- get ;;
  syslog LOG_ERR ("Memory exhausted (last is " +++ pr (cp_file p) +++ ":"
                  +++ string_of_Z (cp_line p) +++ ") (couldn't allocate "
                  +++ string_of_Z size +++ " bytes); exiting.") ;;
  exit 1.

(** *** Names *)

(** Set all files and paths according to netname *)
Definition make_names : M unit :=
  p <- get ;;
  when (match configfilename p with None => true | Some _ => false end)
       (match netname p with
        | Some n =>
            modify (set_configfilename
                      (Some (CONFDIR e +++ "/tinc/" +++ n +++ "/tincd.conf")))
        | None =>
            modify (set_configfilename (Some (CONFDIR e +++ "/tinc/tincd.conf")))
        end) ;;
  match netname p with
  | Some n =>
      modify (set_pidfilename (Some ("/var/run/tincd." +++ n +++ ".pid"))) ;;
      modify (set_confbase (Some (CONFDIR e +++ "/tinc/" +++ n +++ "/"))) ;;
      modify (set_identname (Some ("tincd." +++ n)))
  | None =>
      modify (set_pidfilename (Some "/var/run/tincd.pid"%string)) ;;
      modify (set_confbase (Some (CONFDIR e +++ "/tinc/"))) ;;
      modify (set_identname (Some "tincd"%string))
  end.

(** *** The PID file *)

(** check for an existing tinc for this net, and write pid to pidfile *)
Definition write_pidfile : M Z :=
  p <- get ;;
  pid <- check_pid (pidfilename p) ;;
  if negb (pid =? 0) then
    (match netname p with
     | Some n =>
         fprintf_stderr ("A tincd is already running for net `" +++ n
                         +++ "' with pid " +++ string_of_Z pid +++ "." +++ nl)
     | None =>
         fprintf_stderr ("A tincd is already running with pid "
                         +++ string_of_Z pid +++ "." +++ nl)
     end) ;;
    ret 1
  else
    w <- write_pid (pidfilename p) ;;
    if w =? 0 then ret 1 else ret 0.

(** kill older tincd for this net *)
Definition kill_other : M Z :=
  p <- get ;;
  pid <- read_pid (pidfilename p) ;;
  if pid =? 0 then
    (match netname p with
     | Some n =>
         fprintf_stderr ("No other tincd is running for net `" +++ n
                         +++ "'." +++ nl)
     | None => fprintf_stderr ("No other tincd is running." +++ nl)
     end) ;;
    ret 1
  else
    r <- kill pid SIGTERM ;;
    when (negb (fst r =? 0) && (snd r =? ESRCH))
         (fprintf_stderr ("Removing stale lock file." +++ nl)) ;;
    remove_pid (pidfilename p) ;;
    ret 0.

(** *** Detaching

    [detach] leaves by [return] at several places; the pieces below are its
    body cut at those places, each running to the function's end. *)

(** The parent's branch after [fork]; [exit(1)] follows the sleep. *)
Definition detach_parent (p : proc) : list action :=
  [ASignal SIGTERM (Handler H_parent_exit); ASleep 600; AExit 1].

(** From [chdir("/")] on. *)
Definition detach_tail : M Z :=
  emit (Chdir "/") ;;
  p <- get ;;
  emit (Openlog (identname p)) ;;
  (if debug_lvl p >? 1 then
     syslog LOG_NOTICE
       ("tincd " +++ VERSION e +++ " (" +++ DATE e +++ " " +++ TIME e
        +++ ") starting, debug level " +++ string_of_Z (debug_lvl p) +++ ".")
   else
     syslog LOG_NOTICE
       ("tincd " +++ VERSION e +++ " starting, debug level "
        +++ string_of_Z (debug_lvl p) +++ ".")) ;;
  emit SetXallocFailFunc ;;
  ret 0.

(** From [setsid] on. *)
Definition detach_session : M Z :=
  emit Setsid ;;
  if setsid_ret e <? 0 then ret (-1)
  else
    p <- get ;;
    kill (ppid p) SIGTERM ;;
    detach_tail.

(** From the opening of /dev/tty on. *)
Definition detach_tty : M Z :=
  emit OpenTty ;;
  if tty_fd e >=? 0 then
    emit IoctlNotty ;;
    if negb (ioctl_ret e =? 0) then perror "ioctl" ;; ret (-1)
    else emit CloseTty ;; detach_session
  else detach_session.

(** From [write_pidfile] on. *)
Definition detach_child : M Z :=
  r <- write_pidfile ;;
  if negb (r =? 0) then ret (-1)
  else
    p <- get ;;
    if negb (do_detach p =? 0) then detach_tty else detach_tail.

(** Detach from current terminal, write pidfile, kill parent *)
Definition detach : M Z :=
  p <- get ;;
  if negb (do_detach p =? 0) then
    modify (set_ppid (getpid e)) ;;
    emit Fork ;;
    if fork e <? 0 then perror "fork" ;; ret (-1)
    else if negb (fork e =? 0) then
      (* the parent: its code ends in exit *)
      call detach_parent ;; ret 0
    else detach_child
  else detach_child.

(** *** main *)

Definition version_text : string :=
  PACKAGE e +++ " version " +++ VERSION e +++ nl
  +++ "Copyright (C) 1998,99 Ivo Timmermans and others," +++ nl
  +++ "see the AUTHORS file for a complete list." +++ nl +++ nl
  +++ "tinc comes with ABSOLUTELY NO WARRANTY.  This is free software," +++ nl
  +++ "and you are welcome to redistribute it under certain conditions;" +++ nl
  +++ "see the file COPYING for details." +++ nl +++ nl.

Definition root_message : string :=
  "You must be root to run this program. sorry." +++ nl.

(** From [g_argv = argv] on: the daemon proper, run as root. *)
Definition main_root (argv : list string) : M Z :=
  modify (set_g_argv argv) ;;
  make_names ;;
  p <- get ;;
  when (negb (kill_tincd p =? 0)) (r <- kill_other ;; exit r) ;;
  r <- read_config_file (configfilename p) ;;
  if negb (r =? 0) then ret 1
  else
    setup_signals ;;
    r <- detach ;;
    when (negb (r =? 0)) (exit 0) ;;
    r <- security_init ;;
    if negb (r =? 0) then ret 1
    else
      r <- setup_network_connections ;;
      when (negb (r =? 0)) (call (cleanup_and_exit 1)) ;;
      main_loop ;;
      call (cleanup_and_exit 1) ;;
      ret 1.

(** From the test of [show_version] on. *)
Definition main_parsed (argv : list string) : M Z :=
  p <- get ;;
  if negb (show_version p =? 0) then
    printf version_text ;;
    printf ("This product includes software developed by Eric Young (eay@mincom.oz.au)" +++ nl) ;;
    ret 0
  else
    when (negb (show_help p =? 0)) (usage 0) ;;
    if negb (geteuid e =? 0) then
      fprintf_stderr root_message ;;
      ret 1
    else main_root argv.

(** [opts] is what getopt_long finds on [argv], call by call. *)
Definition main (argv : list string) (opts : list getopt_ret) : M Z :=
  modify (set_program_name (hd_error argv)) ;;
  parse_options opts ;;
  main_parsed argv.

(** The process at its end: the value [main] returns is its exit status. *)
Definition finish (r : res Z * proc) : proc :=
  match r with
  | (Val c, p) => set_st (Exited c) p
  | (Halt, p) => p
  end.

Definition run_main (argv : list string) (opts : list getopt_ret)
    (p : proc) : proc :=
  finish (main argv opts p).

(** ** Signals that arrive while code runs

    The machine runs the code one call at a time ([Tick]) and takes a signal
    between two calls ([Deliver]). Its signals are those of signal() in the
    GNU C library: a handler stays installed when it is called, and its
    signal is blocked while it runs, so a handler is never entered again
    before it returns; a blocked signal that arrives stays pending and is
    delivered when its handler returns. Handlers of different signals nest.
    [Fault] is a SIGSEGV that the running code raises itself: while SIGSEGV
    is blocked, ignored or at its default it ends the process.

    A [Tick] at a [sleep] enters it, the next is the sleep running out; a
    handler called during the sleep makes it return when the handler does.
    A signal that the process sends itself with [kill] is one more
    [Deliver] behind that call. *)

(** A handler that runs: its signal, and what is left of its code. *)
Record frame := mkFrame {
  fsig : Z;
  fcode : list action
}.

Record mach := mkMach {
  mproc : proc;
  (** the handlers that run, the innermost first *)
  frames : list frame;
  (** the code they interrupted *)
  cont : list action;
  (** the code that runs is inside [sleep] *)
  asleep : bool;
  (** the blocked signals that have arrived *)
  pending : list Z
}.

Inductive input :=
| Tick
| Deliver (sig : Z)
| Fault.

(** What a signal at its default does to the process: SIGCHLD, SIGCONT,
    SIGURG and SIGWINCH are ignored, the signals that stop a process leave
    it alive, the others end it. *)
Definition default_spares (sig : Z) : bool :=
  existsb (Z.eqb sig)
          [SIGCHLD; SIGCONT; SIGURG; SIGWINCH;
           SIGSTOP; SIGTSTP; SIGTTIN; SIGTTOU].

Definition default_action (sig : Z) (p : proc) : proc :=
  if default_spares sig then p else set_st (Killed sig) p.

(** The signals of the running handlers are blocked. *)
Definition blocked (m : mach) (sig : Z) : bool :=
  existsb (fun f => fsig f =? sig) (frames m).

(** The code that runs: the innermost handler's, or the interrupted code. *)
Definition code (m : mach) : list action :=
  match frames m with
  | f :: _ => fcode f
  | [] => cont m
  end.

Definition set_code (k : list action) (m : mach) : mach :=
  match frames m with
  | f :: fs =>
      mkMach (mproc m) (mkFrame (fsig f) k :: fs) (cont m) (asleep m)
             (pending m)
  | [] => mkMach (mproc m) [] k (asleep m) (pending m)
  end.

Definition set_mproc (p : proc) (m : mach) : mach :=
  mkMach p (frames m) (cont m) (asleep m) (pending m).

Definition set_asleep (b : bool) (m : mach) : mach :=
  mkMach (mproc m) (frames m) (cont m) b (pending m).

(** A sleep that a handler interrupts will have returned when the handler
    does. *)
Definition interrupted (k : list action) : list action :=
  match k with
  | ASleep _ :: k' => k'
  | _ => k
  end.

(** The handler [h] is called for [sig]. *)
Definition enter (h : handler_id) (sig : Z) (m : mach) : mach :=
  let m' := if asleep m then set_code (interrupted (code m)) m else m in
  mkMach (mproc m)
         (mkFrame sig (handler_body h sig (mproc m)) :: frames m')
         (cont m') false (pending m).

(** A signal that is not blocked is delivered. *)
Definition dispose (sig : Z) (m : mach) : mach :=
  match sigtable (mproc m) sig with
  | Handler h => enter h sig m
  | SIG_IGN => m
  | SIG_DFL => set_mproc (default_action sig (mproc m)) m
  end.

(** One call of the code that runs; with no code left the innermost handler
    returns, its signal is unblocked and delivered if it is pending. *)
Definition tick (m : mach) : mach :=
  match code m with
  | ASleep n :: k =>
      if asleep m then set_asleep false (set_code k m)
      else set_asleep true (set_mproc (run (exec_action (ASleep n)) (mproc m)) m)
  | a :: k => set_code k (set_mproc (run (exec_action a) (mproc m)) m)
  | [] =>
      match frames m with
      | f :: fs =>
          let waits := existsb (Z.eqb (fsig f)) (pending m) in
          let m' := mkMach (mproc m) fs (cont m) false
                           (filter (fun s => negb (s =? fsig f)) (pending m)) in
          if waits then dispose (fsig f) m' else m'
      | [] => m
      end
  end.

Definition step (i : input) (m : mach) : mach :=
  match st (mproc m) with
  | Running =>
      match i with
      | Tick => tick m
      | Deliver sig =>
          if blocked m sig then
            mkMach (mproc m) (frames m) (cont m) (asleep m)
                   (if existsb (Z.eqb sig) (pending m) then pending m
                    else sig :: pending m)
          else dispose sig m
      | Fault =>
          match blocked m SIGSEGV, sigtable (mproc m) SIGSEGV with
          | false, Handler h => enter h SIGSEGV m
          | _, _ => set_mproc (set_st (Killed SIGSEGV) (mproc m)) m
          end
      end
  | _ => m
  end.

Definition steps (ins : list input) (m : mach) : mach :=
  fold_left (fun m i => step i m) ins m.


(** A handler run to its end with no other signal in between. *)
Definition handle (sig : Z) (p : proc) : proc :=
  match sigtable p sig with
  | Handler h => run (exec_actions (handler_body h sig p)) p
  | SIG_IGN => p
  | SIG_DFL => default_action sig p
  end.

End Program.

End Tincd.

(** * top.c *)

Module Top.

(** ** Strings and the C library *)

Definition chr (c : ascii) : Z := Z.of_nat (nat_of_ascii c).

(** [strcmp]: the difference of the first two bytes that differ, the end of
    a string counting as the byte 0. Only its sign is looked at. *)
Fixpoint strcmp (a b : string) : Z :=
  match a, b with
  | EmptyString, EmptyString => 0
  | EmptyString, String d _ => 0 - chr d
  | String c _, EmptyString => chr c
  | String c a', String d b' =>
      if chr c =? chr d then strcmp a' b' else chr c - chr d
  end.

Definition isspace (c : ascii) : bool :=
  (chr c =? 32) || ((9 <=? chr c) && (chr c <=? 13)).

Definition isdigit (c : ascii) : bool :=
  (48 <=? chr c) && (chr c <=? 57).

Fixpoint skip_space (s : string) : string :=
  match s with
  | String c r => if isspace c then skip_space r else s
  | EmptyString => s
  end.

Fixpoint scan_digits (acc : Z) (s : string) : Z * string :=
  match s with
  | String c r =>
      if isdigit c then scan_digits (acc * 10 + (chr c - 48)) r else (acc, s)
  | EmptyString => (acc, s)
  end.

Fixpoint scan_word (s : string) : string * string :=
  match s with
  | String c r =>
      if isspace c then (EmptyString, s)
      else let (w, rest) := scan_word r in (String c w, rest)
  | EmptyString => (EmptyString, s)
  end.

(** The outcome of one conversion of sscanf: the value and the input left,
    a matching failure, or the end of the input before any character of
    the field. *)
Inductive scanned (A : Type) :=
| Converted (v : A) (rest : string)
| MatchFail
| InputFail.
Arguments Converted {A} v rest.
Arguments MatchFail {A}.
Arguments InputFail {A}.

(** A decimal integer after optional white space, with an optional sign. *)
Definition scan_number (s : string) : scanned Z :=
  match skip_space s with
  | EmptyString => InputFail
  | String c r =>
      let neg := (chr c =? chr "-") in
      let body := if neg || (chr c =? chr "+") then r else String c r in
      match body with
      | String d _ =>
          if isdigit d then
            let (v, rest) := scan_digits 0 body in
            Converted (if neg then - v else v) rest
          else MatchFail
      | EmptyString => MatchFail
      end
  end.

(** [%d]: the value as a 32-bit int *)
Definition scan_d (s : string) : scanned Z :=
  match scan_number s with
  | Converted v rest => Converted ((v + 2 ^ 31) mod 2 ^ 32 - 2 ^ 31) rest
  | MatchFail => MatchFail
  | InputFail => InputFail
  end.

(** [%PRIu64]: the value as a uint64_t *)
Definition scan_u64 (s : string) : scanned Z :=
  match scan_number s with
  | Converted v rest => Converted (v mod 2 ^ 64) rest
  | MatchFail => MatchFail
  | InputFail => InputFail
  end.

(** [%s]: the next run of characters that are no white space *)
Definition scan_s (s : string) : scanned string :=
  match skip_space s with
  | EmptyString => InputFail
  | String c r => let (w, rest) := scan_word (String c r) in Converted w rest
  end.

(** ** Data *)

Record timeval := mkTimeval {
  tv_sec : Z;
  tv_usec : Z
}.

(** A float of the observer. The rates are quotients of a uint64_t
    difference by the interval between two dumps, computed in floating
    point; they are kept as the quotient's two operands. *)
Inductive float :=
| FZero
| FDiv (num : Z) (interval : timeval).

Record nodestats_t := mkNode {
  name : string;
  in_packets : Z;
  in_bytes : Z;
  out_packets : Z;
  out_bytes : Z;
  in_packets_rate : float;
  in_bytes_rate : float;
  out_packets_rate : float;
  out_bytes_rate : float;
  known : bool
}.

(** The variables of [update] that sscanf stores into; a variable keeps its
    value when its field is not converted. *)
Record locals := mkLocals {
  l_code : Z;
  l_req : Z;
  l_name : string;
  l_in_packets : Z;
  l_in_bytes : Z;
  l_out_packets : Z;
  l_out_bytes : Z
}.

(** The observer: its static variables, the lines the control socket still
    delivers, what it printed and whether it runs. *)
Record top_t := mkTop {
  node_list : list nodestats_t;
  now : timeval;
  prev : timeval;
  diff : timeval;
  lines : list string;
  out : list event;
  st : status
}.

(** ** Reading one line of a dump *)

Definition EOF : Z := -1.

(** [sscanf] of a line with the format of [update], "%d %d %s" and four
    times "%PRIu64": the number of fields converted, EOF when the line ends
    before the first, and the variables after the stores. *)
Definition sscanf_traffic (line : string) (v : locals) : Z * locals :=
  match scan_d line with
  | InputFail => (EOF, v)
  | MatchFail => (0, v)
  | Converted code s1 =>
  let v1 := mkLocals code (l_req v) (l_name v) (l_in_packets v)
                     (l_in_bytes v) (l_out_packets v) (l_out_bytes v) in
  match scan_d s1 with
  | InputFail | MatchFail => (1, v1)
  | Converted req s2 =>
  let v2 := mkLocals code req (l_name v) (l_in_packets v)
                     (l_in_bytes v) (l_out_packets v) (l_out_bytes v) in
  match scan_s s2 with
  | InputFail | MatchFail => (2, v2)
  | Converted nm s3 =>
  let v3 := mkLocals code req nm (l_in_packets v)
                     (l_in_bytes v) (l_out_packets v) (l_out_bytes v) in
  match scan_u64 s3 with
  | InputFail | MatchFail => (3, v3)
  | Converted ip s4 =>
  let v4 := mkLocals code req nm ip
                     (l_in_bytes v) (l_out_packets v) (l_out_bytes v) in
  match scan_u64 s4 with
  | InputFail | MatchFail => (4, v4)
  | Converted ib s5 =>
  let v5 := mkLocals code req nm ip ib (l_out_packets v) (l_out_bytes v) in
  match scan_u64 s5 with
  | InputFail | MatchFail => (5, v5)
  | Converted op s6 =>
  let v6 := mkLocals code req nm ip ib op (l_out_bytes v) in
  match scan_u64 s6 with
  | InputFail | MatchFail => (6, v6)
  | Converted ob _ => (7, mkLocals code req nm ip ib op ob)
  end end end end end end end.

(** ** The node list *)

(** Modelled from the spec: list_insert_after of list.c, which is not under
    src/. The spec's "ordered list" is a list of entries in link order; the
    call is taken at its name: the new entry is linked in behind the entry
    at position [i]. *)
Definition list_insert_after {A} (l : list A) (i : nat) (data : A) : list A :=
  firstn (S i) l ++ data :: skipn (S i) l.

(** Modelled from the spec: list_insert_tail of list.c, which is not under
    src/, taken at its name: the new entry becomes the last. *)
Definition list_insert_tail {A} (l : list A) (data : A) : list A :=
  l ++ [data].

(** [xmalloc_and_zero] and the copy of the name *)
Definition new_node (nm : string) : nodestats_t :=
  mkNode nm 0 0 0 0 FZero FZero FZero FZero false.

(** The for loop of [update] over the node list [l], at the entry of
    position [i] with [todo] the entries from there on: the list when the
    loop is left, and the position of [found] in it ([None] when [found] is
    still NULL). *)
Fixpoint search (nm : string) (l : list nodestats_t) (i : nat)
    (todo : list nodestats_t) : list nodestats_t * option nat :=
  match todo with
  | [] => (l, None)
  | node :: todo' =>
      let result := strcmp nm (name node) in
      if result >? 0 then search nm l (S i) todo'
      else if result =? 0 then (l, Some i)
      else (list_insert_after l i (new_node nm), Some (S i))
  end.

(** The loop and the [if(!found)] behind it. *)
Definition locate (nm : string) (l : list nodestats_t)
    : list nodestats_t * nat :=
  match search nm l 0 l with
  | (l', Some k) => (l', k)
  | (l', None) => (list_insert_tail l' (new_node nm), List.length l')
  end.

Definition sub64 (a b : Z) : Z := (a - b) mod 2 ^ 64.

(** The stores through [found]. *)
Definition store (v : locals) (interval : timeval) (found : nodestats_t)
    : nodestats_t :=
  mkNode (name found)
         (l_in_packets v) (l_in_bytes v) (l_out_packets v) (l_out_bytes v)
         (FDiv (sub64 (l_in_packets v) (in_packets found)) interval)
         (FDiv (sub64 (l_in_bytes v) (in_bytes found)) interval)
         (FDiv (sub64 (l_out_packets v) (out_packets found)) interval)
         (FDiv (sub64 (l_out_bytes v) (out_bytes found)) interval)
         true.

Fixpoint at_node (k : nat) (f : nodestats_t -> nodestats_t)
    (l : list nodestats_t) : list nodestats_t :=
  match l, k with
  | [], _ => []
  | x :: r, O => f x :: r
  | x :: r, S k' => x :: at_node k' f r
  end.

(** The body of the while loop for a line of seven fields. *)
Definition account (v : locals) (interval : timeval)
    (l : list nodestats_t) : list nodestats_t :=
  let (l', k) := locate (l_name v) l in
  at_node k (store v interval) l'.

Definition forget (node : nodestats_t) : nodestats_t :=
  mkNode (name node) (in_packets node) (in_bytes node) (out_packets node)
         (out_bytes node) (in_packets_rate node) (in_bytes_rate node)
         (out_packets_rate node) (out_bytes_rate node) false.

Definition names (l : list nodestats_t) : list string := map name l.

(** ** update *)

Definition timersub (a b : timeval) : timeval :=
  let sec := tv_sec a - tv_sec b in
  let usec := tv_usec a - tv_usec b in
  if usec <? 0 then mkTimeval (sec - 1) (usec + 1000000)
  else mkTimeval sec usec.

Definition error_message : string :=
  "Error receiving traffic information" +++ nl.

(** The while loop: [ls] is what recvline still delivers, its end the call
    that fails. *)
Fixpoint receive (ls : list string) (v : locals) (t : top_t) : top_t :=
  match ls with
  | [] => mkTop (node_list t) (now t) (prev t) (diff t) [] (out t) (st t)
  | line :: rest =>
      let (n, v') := sscanf_traffic line v in
      if n =? 2 then
        mkTop (node_list t) (now t) (prev t) (diff t) rest (out t) (st t)
      else if negb (n =? 7) then
        mkTop (node_list t) (now t) (prev t) (diff t) rest
              (out t ++ [Endwin; Stderr error_message]) (Exited 1)
      else
        receive rest v'
                (mkTop (account v' (diff t) (node_list t))
                       (now t) (prev t) (diff t) rest (out t) (st t))
  end.

Section Update.

(** The request codes of control_common.h, which is not under src/. *)
Variables CONTROL REQ_DUMP_TRAFFIC : Z.

(** [clock] is the time gettimeofday gives, [v] the variables of the
    function as it is entered. *)
Definition update (clock : timeval) (v : locals) (t : top_t) : top_t :=
  let d := timersub clock (prev t) in
  receive (lines t) v
    (mkTop (map forget (node_list t)) clock clock d (lines t)
           (out t ++ [Sendline (string_of_Z CONTROL +++ " "
                                +++ string_of_Z REQ_DUMP_TRAFFIC)])
           (st t)).

End Update.

(** The node list is in order when no entry's name is greater than the
    next one's. *)
Fixpoint ordered (l : list string) : bool :=
  match l with
  | a :: (b :: _) as r => (strcmp a b <=? 0) && ordered r
  | _ => true
  end.

End Top.

(** * top.c: the display order and the keys *)

Module TopUI.

Import Top.

Definition sortname : list string :=
  ["name"; "in pkts"; "in bytes"; "out pkts"; "out bytes"; "tot pkts";
   "tot bytes"]%string.

(** A string of C holds no byte 0 before its end. *)
Fixpoint c_string (s : string) : bool :=
  match s with
  | EmptyString => true
  | String c r => negb (chr c =? 0) && c_string r
  end.

Definition cmpu64 (a b : Z) : Z :=
  if a <? b then -1 else if a >? b then 1 else 0.

(** The sum of two uint64_t *)
Definition add64 (a b : Z) : Z := (a + b) mod 2 ^ 64.

Section Floats.

(** The comparison [a < b] and the sum of two floats, which the machine
    computes. *)
Variable flt : float -> float -> bool.
Variable fadd : float -> float -> float.

Definition cmpfloat (a b : float) : Z :=
  if flt a b then -1 else if flt b a then 1 else 0.

(** The comparison qsort is given, for the current [sortmode] and
    [cumulative]. *)
Definition sortfunc (sortmode : Z) (cumulative : bool)
    (na nb : nodestats_t) : Z :=
  if sortmode =? 1 then
    if cumulative then - cmpu64 (in_packets na) (in_packets nb)
    else - cmpfloat (in_packets_rate na) (in_packets_rate nb)
  else if sortmode =? 2 then
    if cumulative then - cmpu64 (in_bytes na) (in_bytes nb)
    else - cmpfloat (in_bytes_rate na) (in_bytes_rate nb)
  else if sortmode =? 3 then
    if cumulative then - cmpu64 (out_packets na) (out_packets nb)
    else - cmpfloat (out_packets_rate na) (out_packets_rate nb)
  else if sortmode =? 4 then
    if cumulative then - cmpu64 (out_bytes na) (out_bytes nb)
    else - cmpfloat (out_bytes_rate na) (out_bytes_rate nb)
  else if sortmode =? 5 then
    if cumulative then
      - cmpu64 (add64 (in_packets na) (out_packets na))
               (add64 (in_packets nb) (out_packets nb))
    else
      - cmpfloat (fadd (in_packets_rate na) (out_packets_rate na))
                 (fadd (in_packets_rate nb) (out_packets_rate nb))
  else if sortmode =? 6 then
    if cumulative then
      - cmpu64 (add64 (in_bytes na) (out_bytes na))
               (add64 (in_bytes nb) (out_bytes nb))
    else
      - cmpfloat (fadd (in_bytes_rate na) (out_bytes_rate na))
                 (fadd (in_bytes_rate nb) (out_bytes_rate nb))
  else strcmp (name na) (name nb).

End Floats.

(** The static variables of top.c that the keys change. *)
Record ui_t := mkUi {
  sortmode : Z;
  cumulative : bool;
  delay : Z;
  running : bool
}.

(** Their initialisers. *)
Definition ui_start : ui_t := mkUi 0 false 1000 true.

Section Keys.

(** The code of the break key in curses.h, which is not under src/. *)
Variable KEY_BREAK : Z.

(** The switch of [top] on the key that getch gives. For the key s the
    new delay is computed in floating point from what the user types, at
    least 0.1 seconds; [typed] is that delay in milliseconds. *)
Definition key (c : Z) (typed : Z) (u : ui_t) : ui_t :=
  if c =? chr "s" then mkUi (sortmode u) (cumulative u) typed (running u)
  else if c =? chr "c" then
    mkUi (sortmode u) (negb (cumulative u)) (delay u) (running u)
  else if c =? chr "n" then mkUi 0 (cumulative u) (delay u) (running u)
  else if c =? chr "i" then mkUi 2 (cumulative u) (delay u) (running u)
  else if c =? chr "I" then mkUi 1 (cumulative u) (delay u) (running u)
  else if c =? chr "o" then mkUi 4 (cumulative u) (delay u) (running u)
  else if c =? chr "O" then mkUi 3 (cumulative u) (delay u) (running u)
  else if c =? chr "t" then mkUi 6 (cumulative u) (delay u) (running u)
  else if c =? chr "T" then mkUi 5 (cumulative u) (delay u) (running u)
  else if (c =? chr "q") || (c =? 27) || (c =? KEY_BREAK) then
    mkUi (sortmode u) (cumulative u) (delay u) false
  else u.

(** The keys of a session, each with what the user types at the prompt of
    the key s. *)
Definition keys (ks : list (Z * Z)) (u : ui_t) : ui_t :=
  fold_left (fun u k => key (fst k) (snd k) u) ks u.

End Keys.

End TopUI.

(** * genauth.c *)

Module Genauth.

Definition EOF : Z := -1.

(** The value of a long, and of an int that a long is stored into. *)
Definition to_long (v : Z) : Z := Z.max (- 2 ^ 63) (Z.min (2 ^ 63 - 1) v).
Definition to_int (v : Z) : Z := (v + 2 ^ 31) mod 2 ^ 32 - 2 ^ 31.

(** [atol]: the decimal number at the head of the string, after white
    space and with an optional sign, kept within a long; 0 when there is
    none. *)
Definition atol (s : string) : Z :=
  match Top.scan_number s with
  | Top.Converted v _ => to_long v
  | _ => 0
  end.

(** [bits = ((bits - 1) | 63) + 1] on ints *)
Definition round_bits (bits : Z) : Z :=
  to_int (Z.lor (to_int (bits - 1)) 63 + 1).

(** printf's [%02x] on an unsigned char *)
Definition hex_digit (n : Z) : ascii :=
  ascii_of_nat (Z.to_nat (if n <? 10 then 48 + n else 87 + n)).

Definition hex2 (b : Z) : string :=
  String (hex_digit (b / 16)) (String (hex_digit (b mod 16)) EmptyString).

(** printf's [%s] *)
Definition pr (s : option string) : string :=
  match s with Some x => x | None => "(null)"%string end.

(** The loop that reads [n] bytes from the stream [fp]: the array it
    fills, what it prints, and the stream left. At the end of the stream
    fgetc gives EOF, the loop says so and stores EOF as an unsigned char. *)
Fixpoint fill (n : nat) (fp : list Z) : list Z * list event * list Z :=
  match n with
  | O => ([], [], fp)
  | S n' =>
      match fp with
      | c :: fp' =>
          let '(p, evs, rest) := fill n' fp' in
          (c mod 256 :: p, evs, rest)
      | [] =>
          let '(p, evs, rest) := fill n' [] in
          (EOF mod 256 :: p,
           Stdout nl :: Stderr ("File was empty!" +++ nl) :: evs,
           rest)
      end
  end.

Section Main.

(** Whether an allocation of that many bytes succeeds, and the bytes that
    /dev/urandom delivers ([None] when it cannot be opened). *)
Variable xmalloc_ok : Z -> bool.
Variable urandom : option (list Z).

(** Modelled from the spec: xmalloc of lib/xalloc.c, which is not under
    src/: memory exhaustion ends the process with status 1. *)
Definition xmalloc_failed : list event * Z := ([], 1).

(** What the program prints, in order, and its exit status. *)
Definition main (argv : list string) : list event * Z :=
  if negb (Z.of_nat (List.length argv) =? 2) then
    ([Stderr ("Usage: " +++ pr (hd_error argv) +++ " bits" +++ nl)], 1)
  else
    let arg := nth 1 argv EmptyString in
    let bits := to_int (atol arg) in
    if bits =? 0 then
      ([Stderr ("Illegal number: " +++ arg +++ nl)], 1)
    else
      let bits := round_bits bits in
      let generating :=
        Stderr ("Generating " +++ string_of_Z bits +++ " bits number") in
      let bytes := Z.shiftr bits 3 in
      match urandom with
      | None => ([generating; Perror "Opening /dev/urandom"], 1)
      | Some fp =>
          if xmalloc_ok bytes then
            let '(p, evs, _) := fill (Z.to_nat bytes) fp in
            (generating :: evs
             ++ Stdout (string_of_Z bits +++ " ")
             :: map (fun b => Stdout (hex2 b)) p
             ++ [Stdout nl; Stderr (": done." +++ nl)],
             0)
          else (generating :: fst xmalloc_failed, snd xmalloc_failed)
      end.

End Main.

End Genauth.

(** * Scenarios and vocabulary of the properties *)

Module Scenario.

Import Tincd.

(** The events of [p'] that [p] had not yet. *)
Definition news (p p' : proc) : list event :=
  skipn (List.length (trace p)) (trace p').

(** The PID file of a net: /var/run/tincd[.<netname>].pid *)
Definition pid_path (net : option string) : string :=
  match net with
  | Some n => "/var/run/tincd." +++ n +++ ".pid"
  | None => "/var/run/tincd.pid"
  end.

Definition count_execvp (l : list event) : nat :=
  List.length (filter is_execvp l).

Definition is_add_config_val (ev : event) : bool :=
  match ev with AddConfigVal _ => true | _ => false end.

(** An exit status that tells the invoking shell of a failure. *)
Definition failure (s : status) : Prop :=
  exists c, s = Exited c /\ c <> 0.

(** A handler that only raises a flag for the main loop leaves the process
    running and reaches into nothing: in particular it adds no event on the
    connection registry to the trace. *)
Definition deferred (p p' : proc) : Prop :=
  st p' = st p
  /\ filter touches_registry (trace p') = filter touches_registry (trace p).

(** What parsing the options leaves alone. *)
Definition same_world (p p' : proc) : Prop :=
  pidfiles p' = pidfiles p /\ sigtable p' = sigtable p /\ st p' = st p.

(** What a second daemon for net [n] says of the first, process [pid]. *)
Definition already_running_message (n : string) (pid : Z) : string :=
  "A tincd is already running for net `" +++ n +++ "' with pid "
  +++ string_of_Z pid +++ "." +++ nl.


(** *** The vocabulary of the second strike *)

(** A call of signal() that would undo the second strike: it binds
    [sigsegv_handler], or binds SIGSEGV to anything but [sigsegv_square]. *)
Definition rebinds_first_strike (a : action) : bool :=
  match a with
  | ASignal _ (Handler H_sigsegv_handler) => true
  | ASignal _ (Handler H_sigsegv_square) => false
  | ASignal sig _ => sig =? SIGSEGV
  | _ => false
  end.

(** The call that installs the second-strike handler. *)
Definition installs_second (a : action) : bool :=
  match a with
  | ASignal sig (Handler H_sigsegv_square) => sig =? SIGSEGV
  | _ => false
  end.

Definition is_aexecvp (a : action) : bool :=
  match a with AExecvp _ _ => true | _ => false end.


(** The calls of execvp, made and to come. *)
Definition attempts_at (p : proc) (k : list action) : nat :=
  (count_execvp (trace p) + List.length (filter is_aexecvp k))%nat.



(** A process with code [k] to come and the handlers [sf] of SIGSEGV
    running, on which the recovery is guarded: only SIGSEGV is bound to
    [sigsegv_handler] if anything is, no code to come binds it again, at
    most one execvp is made or to come, at most one handler of SIGSEGV
    runs, and as long as [sigsegv_handler] is bound either nothing was
    attempted yet and no handler of SIGSEGV runs, or the handler that runs
    has the call before it that installs [sigsegv_square]. *)
Definition guarded_at (p : proc) (k : list action) (sf : list frame) : Prop :=
  (forall s, s <> SIGSEGV -> sigtable p s <> Handler H_sigsegv_handler)
  /\ (sigtable p SIGSEGV = Handler H_sigsegv_handler
      \/ sigtable p SIGSEGV = Handler H_sigsegv_square)
  /\ forallb (fun a => negb (rebinds_first_strike a)) k = true
  /\ (attempts_at p k <= 1)%nat
  /\ (List.length sf <= 1)%nat
  /\ (sigtable p SIGSEGV = Handler H_sigsegv_handler ->
      match sf with
      | [] => attempts_at p k = 0%nat
      | f :: _ => existsb installs_second (fcode f) = true
      end).


(** The machine of the scenarios: root, pid 100, the child's side of
    [fork]; process 4242 lives and no other. *)
Definition e0 : env :=
  mkEnv "tinc" "1.0pre2" "/etc" "Jan  1 2000" "00:00:00" 0 100 0
        (fun pid _ => if pid =? 4242 then 0 else ESRCH)
        true (fun _ => true) 0 0 0 3 0 0 true.

(** The same for a user who is not root. *)
Definition e_user : env :=
  mkEnv "tinc" "1.0pre2" "/etc" "Jan  1 2000" "00:00:00" 1000 100 0
        (fun pid _ => if pid =? 4242 then 0 else ESRCH)
        true (fun _ => true) 0 0 0 3 0 0 true.


(** A daemon for net v1 runs as process 4242. *)
Definition files_v1 (f : string) : option Z :=
  if String.eqb f "/var/run/tincd.v1.pid" then Some 4242 else None.

(** The PID file of net v1 names process 999999, which is gone. *)
Definition files_stale (f : string) : option Z :=
  if String.eqb f "/var/run/tincd.v1.pid" then Some 999999 else None.

Definition no_files (f : string) : option Z := None.

(** [tincd -n v1 -D] up to the main loop: names made, handlers installed,
    PID file written. *)
Definition booted : proc :=
  run (parse_options e0 [Short "n" "v1"; Short "D" ""] ;;
       modify (set_g_argv ["tincd"; "-n"; "v1"; "-D"]%string) ;;
       make_names e0 ;;
       setup_signals ;;
       detach e0)
      (start no_files).

End Scenario.

Module TopScenario.

Import Top.

(** The observer of the examples: one node, [b], and a dump that names a
    node [a] before its sentinel. *)
Definition v0 : locals := mkLocals 0 0 "" 0 0 0 0.

Definition node_b : nodestats_t := new_node "b".

Definition t0 : top_t :=
  mkTop [node_b] (mkTimeval 0 0) (mkTimeval 10 0) (mkTimeval 0 0)
        ["18 13 a 1 2 3 4"; "18 13"]%string [] Running.

End TopScenario.

(** * The start of the daemon *)

Module Startup.

Import Tincd Scenario.

(** The process as [main] has it at its call of [detach]: the arguments
    kept, the names made, the configuration read and the signals bound. *)
Definition before_detach (e : env) (argv : list string) (p : proc) : proc :=
  let q := run (make_names e) (set_g_argv argv p) in
  run setup_signals (run (read_config_file e (configfilename q)) q).

(** The process in the parent when [fork] has returned: [detach] has kept
    its pid and forked. *)
Definition after_fork (e : env) (q : proc) : proc :=
  run (modify (set_ppid (getpid e)) ;; emit Fork) q.

(** The supervisor parent: the code of [detach] behind the fork. *)
Definition supervisor (q : proc) : mach :=
  mkMach q [] (detach_parent q) false [].


(** What the calls between [setup_signals] and [main_loop] keep of a
    process. *)
Definition kept (q q' : proc) : Prop :=
  sigtable q' = sigtable q
  /\ g_argv q' = g_argv q
  /\ pidfilename q' = pidfilename q
  /\ netname q' = netname q
  /\ st q' = st q
  /\ count_execvp (trace q') = count_execvp (trace q).

(** The machine of the scenarios in the parent of the fork: the child is
    process 101. *)
Definition e_parent : env :=
  mkEnv "tinc" "1.0pre2" "/etc" "Jan  1 2000" "00:00:00" 0 100 101
        (fun pid _ => if pid =? 4242 then 0 else ESRCH)
        true (fun _ => true) 0 0 0 3 0 0 true.

(** The machine of the scenarios where [fork] fails. *)
Definition e_nofork : env :=
  mkEnv "tinc" "1.0pre2" "/etc" "Jan  1 2000" "00:00:00" 0 100 (-1)
        (fun pid _ => if pid =? 4242 then 0 else ESRCH)
        true (fun _ => true) 0 0 0 3 0 0 true.

(** The same where the configuration file cannot be read. *)
Definition e_noconf : env :=
  mkEnv "tinc" "1.0pre2" "/etc" "Jan  1 2000" "00:00:00" 0 100 0
        (fun pid _ => if pid =? 4242 then 0 else ESRCH)
        true (fun _ => true) (-1) 0 0 3 0 0 true.

(** The same where the terminal cannot be given up. *)
Definition e_noioctl : env :=
  mkEnv "tinc" "1.0pre2" "/etc" "Jan  1 2000" "00:00:00" 0 100 0
        (fun pid _ => if pid =? 4242 then 0 else ESRCH)
        true (fun _ => true) 0 0 0 3 (-1) 0 true.

(** The same where the key material cannot be read. *)
Definition e_nokeys : env :=
  mkEnv "tinc" "1.0pre2" "/etc" "Jan  1 2000" "00:00:00" 0 100 0
        (fun pid _ => if pid =? 4242 then 0 else ESRCH)
        true (fun _ => true) 0 (-1) 0 3 0 0 true.

(** [tincd -n v1 -D] after its options. *)
Definition foreground : proc :=
  run (parse_options e0 [Short "n" "v1"; Short "D" ""])
      (set_program_name (Some "tincd"%string) (start no_files)).

End Startup.

(** * Properties of the daemon *)

Module TincdFacts.

Import Tincd Scenario.

Arguments string_of_Z : simpl never.
Arguments count_execvp : simpl never.

(** ** What [setup_signals] leaves *)

Lemma setup_signals_binds p :
  let t := sigtable (run setup_signals p) in
  t SIGTERM = Handler H_sigterm_handler
  /\ t SIGQUIT = Handler H_sigquit_handler
  /\ t SIGINT = Handler H_sigint_handler
  /\ t SIGHUP = Handler H_sighup_handler
  /\ t SIGSEGV = Handler H_sigsegv_handler
  /\ t SIGUSR1 = Handler H_sigusr1_handler
  /\ t SIGUSR2 = Handler H_sigusr2_handler
  /\ t SIGCHLD = Handler H_parent_exit
  /\ t SIGPIPE = SIG_IGN
  /\ t SIGALRM = Handler H_sighuh.
Proof. destruct p. vm_compute. repeat split. Qed.

Ltac split_tests :=
  repeat match goal with
         | |- context [if ?a =? ?b then _ else _] => destruct (Z.eqb_spec a b)
         end.


Lemma skipn_length_app {A} (l r : list A) : skipn (List.length l) (l ++ r) = r.
Proof. induction l; cbn; auto. Qed.

Lemma news_app p p' evs : trace p' = trace p ++ evs -> news p p' = evs.
Proof. unfold news. intros ->. apply skipn_length_app. Qed.

Lemma count_execvp_app l r :
  count_execvp (l ++ r) = (count_execvp l + count_execvp r)%nat.
Proof. unfold count_execvp. now rewrite filter_app, length_app. Qed.

(** Runs straight-line code on a process given by its fields, and reads the
    new events off the trace. *)
Ltac straight :=
  cbn; unfold news; cbn [trace];
  rewrite <- ?app_assoc; cbn [app]; rewrite ?skipn_length_app.

Ltac finish := repeat split; try reflexivity; cbn [In app]; auto 10.

(** ** The handlers, run to their end *)

(** C3 (the code departs from it): TERM, QUIT and INT run cleanup_and_exit,
    which closes the network connections and the log and exits with status
    0, and unlinks nothing: the PID files are on disk as they were. *)
Theorem C3_graceful_shutdown_leaves_pid_file (e : env) (p : proc) :
  let p1 := run setup_signals p in
  Forall (fun sig =>
            let p2 := handle e sig p1 in
            st p2 = Exited 0
            /\ In CloseNetworkConnections (news p1 p2)
            /\ filter is_unlink (news p1 p2) = []
            /\ pidfiles p2 = pidfiles p1)
         [SIGTERM; SIGQUIT; SIGINT].
Proof.
  cbv zeta.
  destruct (setup_signals_binds p) as (Hterm & Hquit & Hint & _).
  repeat apply Forall_cons; try apply Forall_nil; unfold handle;
    rewrite ?Hterm, ?Hquit, ?Hint; cbn [handler_body];
    generalize (run setup_signals p); intros q; destruct q;
    unfold sigterm_handler, sigquit_handler, sigint_handler, cleanup_and_exit;
    cbn [debug_lvl]; destruct (debug_lvl0 >? 0); straight; finish.
Qed.

(** C5 (the code departs from it): the HUP handler logs at debug level 1 and
    up, closes the network connections and sets them up again; it does not
    read the configuration file, and it returns to the interrupted code
    whatever setup_network_connections answers. *)
Theorem C5_sighup_does_not_reparse (e : env) (p : proc) :
  let p1 := run setup_signals p in
  let p2 := handle e SIGHUP p1 in
  news p1 p2
  = (if debug_lvl p1 >? 0 then [Syslog LOG_NOTICE "Got HUP signal"] else [])
    ++ [CloseNetworkConnections; SetupNetworkConnections]
  /\ filter is_read_config (news p1 p2) = []
  /\ st p2 = st p1
  /\ configfilename p2 = configfilename p1.
Proof.
  cbv zeta.
  destruct (setup_signals_binds p) as (_ & _ & _ & Hhup & _).
  unfold handle. rewrite Hhup. cbn [handler_body].
  generalize (run setup_signals p); intros q; destruct q.
  unfold sighup_handler. cbn [debug_lvl].
  destruct (debug_lvl0 >? 0); straight; finish.
Qed.

Lemma filter_registry_app l r :
  filter touches_registry (l ++ r)
  = filter touches_registry l ++ filter touches_registry r.
Proof. apply filter_app. Qed.

(** The signals that [setup_signals] leaves to [sighuh]. *)
Lemma setup_signals_leaves_to_sighuh (p : proc) (s : Z) :
  1 <= s <= 31 ->
  ~ In s [SIGKILL; SIGSTOP; SIGTERM; SIGQUIT; SIGSEGV; SIGHUP; SIGPIPE;
          SIGINT; SIGUSR1; SIGUSR2; SIGCHLD] ->
  sigtable (run setup_signals p) s = Handler H_sighuh.
Proof.
  intros Hs Hnot. destruct p. cbn -[In]. cbn [In] in Hnot.
  unfold SIGKILL, SIGSTOP, SIGTERM, SIGQUIT, SIGSEGV, SIGHUP, SIGPIPE,
    SIGINT, SIGUSR1, SIGUSR2, SIGCHLD in *.
  split_tests; subst; try reflexivity; try lia; exfalso; tauto.
Qed.

(** C4, as the code has it: the handlers of TERM, QUIT, INT, HUP, SEGV, USR1
    and USR2 do their work themselves, in signal context. TERM, QUIT and
    INT close the network connections and exit with status 0. HUP logs
    (debug level above 0), closes the network connections, sets them up
    again and returns. SEGV logs, closes the network connections, unlinks
    the PID file and calls execvp, in this order. USR1 dumps the connection
    list. USR2 logs (debug level above 1) and regenerates the keys. A
    signal from 1 to 31 that [setup_signals] leaves to [sighuh] leaves the
    process running and the connection registry untouched. *)
Theorem C4_handlers_act_in_signal_context (e : env) (p : proc) :
  let p1 := run setup_signals p in
  let log (level : Z) (s : string) :=
    if debug_lvl p1 >? level then [Syslog LOG_NOTICE s] else [] in
  Forall (fun sig =>
            In CloseNetworkConnections (news p1 (handle e sig p1))
            /\ st (handle e sig p1) = Exited 0)
         [SIGTERM; SIGQUIT; SIGINT]
  /\ (news p1 (handle e SIGHUP p1)
      = log 0 "Got HUP signal"%string
        ++ [CloseNetworkConnections; SetupNetworkConnections]
      /\ st (handle e SIGHUP p1) = st p1)
  /\ news p1 (handle e SIGSEGV p1)
     = [Syslog LOG_NOTICE
          (match cp_file p1 with
           | Some f => "Got SEGV signal after " +++ f +++ " line "
                       +++ string_of_Z (cp_line p1)
                       +++ ". Trying to re-execute."
           | None => "Got SEGV signal; trying to re-execute."
           end);
        CloseNetworkConnections;
        Unlink (pidfilename p1);
        Execvp (hd_error (g_argv p1)) (g_argv p1)]
  /\ news p1 (handle e SIGUSR1 p1) = [DumpConnList]
  /\ news p1 (handle e SIGUSR2 p1)
     = log 1 "Forcing new keys"%string ++ [RegenerateKeys]
  /\ (forall s,
        1 <= s <= 31 ->
        ~ In s [SIGKILL; SIGSTOP; SIGTERM; SIGQUIT; SIGSEGV; SIGHUP; SIGPIPE;
                SIGINT; SIGUSR1; SIGUSR2; SIGCHLD] ->
        deferred p1 (handle e s p1)).
Proof.
  cbv zeta.
  destruct (setup_signals_binds p)
    as (Hterm & Hquit & Hint & Hhup & Hsegv & Husr1 & Husr2 & _).
  assert (Hhuh := setup_signals_leaves_to_sighuh p).
  set (p1 := run setup_signals p) in *. clearbody p1. clear p.
  destruct p1. cbn [sigtable debug_lvl cp_file cp_line pidfilename g_argv] in *.
  unfold handle, deferred. cbn [sigtable].
  split; [repeat apply Forall_cons; try apply Forall_nil; cbv beta|];
    rewrite ?Hterm, ?Hquit, ?Hint, ?Hhup, ?Hsegv, ?Husr1, ?Husr2;
    unfold handler_body, sigterm_handler, sigquit_handler, sigint_handler,
      cleanup_and_exit, sighup_handler, sigsegv_handler, sigusr1_handler,
      sigusr2_handler;
    cbn [debug_lvl cp_file].
  1-3: destruct (debug_lvl0 >? 0); straight; finish.
  repeat match goal with |- _ /\ _ => split end.
  - destruct (debug_lvl0 >? 0); straight; finish.
  - destruct (debug_lvl0 >? 0); reflexivity.
  - destruct e; destruct execvp_ok0, pidfilename0, cp_file0; straight; finish.
  - straight. reflexivity.
  - destruct (debug_lvl0 >? 1); straight; finish.
  - intros s Hs Hnot. rewrite (Hhuh s Hs Hnot).
    cbn [handler_body]. unfold sighuh. cbn [cp_file cp_line].
    split; [reflexivity|].
    cbn. rewrite filter_registry_app. cbn. now rewrite app_nil_r.
Qed.

(** C4, as the claim has it, fails for each of the seven: on the booted
    daemon the handlers of TERM, QUIT and INT end the process, and those of
    HUP, SEGV, USR1 and USR2 reach into the connection registry. *)
Lemma C4_handlers_are_not_deferred :
  Forall (fun sig => ~ deferred booted (handle e0 sig booted))
         [SIGTERM; SIGQUIT; SIGINT; SIGHUP; SIGSEGV; SIGUSR1; SIGUSR2].
Proof.
  unfold deferred.
  repeat apply Forall_cons; try apply Forall_nil; intros [Hst Hreg].
  1-3: vm_compute in Hst; discriminate Hst.
  all: vm_compute in Hreg; discriminate Hreg.
Qed.

(** ** main *)

(** When the options parse, [main] goes on with the globals they left. *)
Lemma main_parsed_after_options e argv opts p0 p1 :
  parse_options e opts (set_program_name (hd_error argv) p0) = (Val tt, p1) ->
  run_main e argv opts p0 = finish (main_parsed e argv p1).
Proof.
  intros Hparse. unfold run_main, main.
  unfold bind at 1. unfold modify at 1.
  unfold bind at 1. rewrite Hparse. reflexivity.
Qed.

Lemma same_world_trans p q r :
  same_world p q -> same_world q r -> same_world p r.
Proof.
  unfold same_world. intros (-> & -> & ->) (-> & -> & ->). auto.
Qed.

Lemma getopt_long_frame o p :
  exists r a p',
    getopt_long o p = (Val (r, a), p')
    /\ same_world p p' /\ trace p' = trace p.
Proof.
  unfold getopt_long, same_world.
  destruct o as [c a|i a].
  - exists (chr c), a, p. auto.
  - destruct (nth_error long_options i) as [opt|].
    + destruct (flag opt) as [[]|]; do 3 eexists;
        (split; [reflexivity|]); destruct p; cbn; auto.
    + do 3 eexists. split; [reflexivity|]. auto.
Qed.

Lemma parse_option_frame e r a p p' :
  parse_option e r a p = (Val tt, p') ->
  same_world p p'
  /\ (trace p' = trace p \/ trace p' = trace p ++ [AddConfigVal a]).
Proof.
  unfold parse_option, same_world.
  repeat match goal with
         | |- context [if ?x =? ?y then _ else _] => destruct (x =? y)
         end;
    unfold usage, add_config_val, bind, modify, emit, modify, ret, get, exit;
    try destruct (add_config_val_ok e a);
    try destruct (negb (1 =? 0));
    intros H; try discriminate H;
    injection H as <-; destruct p; cbn; auto.
Qed.

Lemma parse_options_frame e opts :
  forall p p1,
    parse_options e opts p = (Val tt, p1) ->
    same_world p p1
    /\ exists evs, trace p1 = trace p ++ evs
                   /\ forallb is_add_config_val evs = true.
Proof.
  induction opts as [|o opts IH]; intros p p1 Hp.
  - injection Hp as <-. split; [repeat split|].
    exists []. now rewrite app_nil_r.
  - cbn [parse_options] in Hp. unfold bind in Hp.
    destruct (getopt_long_frame o p) as (r & a & q & Hg & Hw & Ht).
    rewrite Hg in Hp. cbn [fst snd] in Hp.
    destruct (parse_option e r a q) as [[[]|] q'] eqn:Ho; [|discriminate Hp].
    apply parse_option_frame in Ho. destruct Ho as [Hw' Ht'].
    apply IH in Hp. destruct Hp as (Hw'' & evs & Hevs & Hall).
    split; [eauto using same_world_trans|].
    rewrite Hevs. destruct Ht' as [->| ->]; rewrite Ht.
    + exists evs. auto.
    + exists (AddConfigVal a :: evs). rewrite <- app_assoc. auto.
Qed.

(** C9, as the code has it: when the options parse and ask for neither the
    version nor the help, a user who is not root gets "You must be root to
    run this program. sorry." on stderr and exit status 1. Up to there the
    options were stored and a timeout given to add_config_val, and nothing
    else: no configuration file read, no PID file read or written, no signal
    bound, no connection set up. *)
Theorem C9_root_check_after_version_and_help
    (e : env) (argv : list string) (opts : list getopt_ret) (p0 p1 : proc) :
  parse_options e opts (set_program_name (hd_error argv) p0) = (Val tt, p1) ->
  show_version p1 = 0 ->
  show_help p1 = 0 ->
  geteuid e <> 0 ->
  let p' := run_main e argv opts p0 in
  st p' = Exited 1
  /\ news p1 p'
     = [Stderr ("You must be root to run this program. sorry." +++ nl)]
  /\ forallb is_add_config_val (news p0 p1) = true
  /\ pidfiles p' = pidfiles p0
  /\ sigtable p' = sigtable p0.
Proof.
  intros Hparse Hv Hh Hroot. cbv zeta.
  rewrite (main_parsed_after_options _ _ _ _ _ Hparse).
  apply parse_options_frame in Hparse.
  destruct Hparse as ((Hfiles & Htable & _) & evs & Hevs & Hall).
  assert (Hnews : news p0 p1 = evs).
  { unfold news. rewrite Hevs. destruct p0. cbn. apply skipn_length_app. }
  rewrite Hnews.
  replace (pidfiles p0) with (pidfiles p1) by (rewrite Hfiles; now destruct p0).
  replace (sigtable p0) with (sigtable p1) by (rewrite Htable; now destruct p0).
  unfold main_parsed, bind, get. rewrite Hv, Hh. cbn [Z.eqb negb when ret].
  destruct (Z.eqb_spec (geteuid e) 0) as [|_]; [contradiction|].
  clear Hevs Hnews. destruct p1. straight. finish.
Qed.

Lemma C9_root_check_after_version_and_help_witness :
  let argv := ["tincd"; "-n"; "v1"]%string in
  let opts := [Short "n" "v1"] in
  let p0 := start files_v1 in
  let p1 := run (parse_options e_user opts)
                (set_program_name (hd_error argv) p0) in
  let p' := run_main e_user argv opts p0 in
  st p' = Exited 1
  /\ news p1 p'
     = [Stderr ("You must be root to run this program. sorry." +++ nl)]
  /\ forallb is_add_config_val (news p0 p1) = true
  /\ pidfiles p' = pidfiles p0
  /\ sigtable p' = sigtable p0.
Proof.
  cbv zeta.
  apply (C9_root_check_after_version_and_help
           e_user ["tincd"; "-n"; "v1"]%string [Short "n" "v1"]
           (start files_v1)).
  - vm_compute. reflexivity.
  - vm_compute. reflexivity.
  - vm_compute. reflexivity.
  - vm_compute. discriminate.
Defined.

(** C9, as the claim has it, fails: [tincd --version] run by a user who is
    not root prints the version and exits with status 0, and says nothing
    about root. *)
Lemma C9_version_needs_no_root :
  let p' := run_main e_user ["tincd"; "--version"]%string [Long 4 ""]
                     (start no_files) in
  st p' = Exited 0
  /\ ~ In (Stderr ("You must be root to run this program. sorry." +++ nl))
          (trace p').
Proof.
  cbv zeta. split; [vm_compute; reflexivity|].
  vm_compute. intros [H|[H|[]]]; discriminate H.
Qed.

(** ** The PID file *)

(** The monad's laws, as the proofs below use them. *)
Lemma bind_modify {B} f (k : unit -> M B) p :
  bind (modify f) k p = k tt (f p).
Proof. reflexivity. Qed.

Lemma bind_get {B} (k : proc -> M B) p : bind get k p = k p p.
Proof. reflexivity. Qed.

Lemma bind_val {A B} (m : M A) (k : A -> M B) p a p' :
  m p = (Val a, p') -> bind m k p = k a p'.
Proof. unfold bind. now intros ->. Qed.

Lemma bind_halt {A B} (m : M A) (k : A -> M B) p p' :
  m p = (Halt, p') -> bind m k p = (Halt, p').
Proof. unfold bind. now intros ->. Qed.

Lemma bind_exit {B C} (m : M Z) (k : B -> M C) p :
  bind (bind m exit) k p = bind m exit p.
Proof. unfold bind. destruct (m p) as [[a|] p']; reflexivity. Qed.

Lemma make_names_val e p : make_names e p = (Val tt, run (make_names e) p).
Proof. destruct p. destruct netname0, configfilename0; reflexivity. Qed.

Lemma make_names_fields e p :
  let q := run (make_names e) p in
  pidfilename q = Some (pid_path (netname p))
  /\ netname q = netname p
  /\ kill_tincd q = kill_tincd p
  /\ do_detach q = do_detach p
  /\ pidfiles q = pidfiles p
  /\ trace q = trace p
  /\ st q = st p.
Proof.
  destruct p. destruct netname0, configfilename0; cbn; auto 10.
Qed.

(** [kill_other] when the process named by the PID file is gone. *)
Lemma kill_other_stale e q path pid :
  pidfilename q = Some path ->
  pidfiles q path = Some pid -> pid <> 0 ->
  kill_errno e pid SIGTERM = ESRCH ->
  let q' := run (kill_other e) q in
  kill_other e q = (Val 0, q')
  /\ news q q' = [Kill pid SIGTERM;
                  Stderr ("Removing stale lock file." +++ nl);
                  Unlink (Some path)]
  /\ pidfiles q' path = None.
Proof.
  intros Hname Hfile Hpid Herr. destruct q. cbn [pidfilename pidfiles] in *.
  subst pidfilename0. cbv zeta.
  unfold run, kill_other, bind, get, read_pid, bind, get, ret, file_pid.
  cbn [pidfilename pidfiles fst snd netname]. rewrite Hfile.
  destruct (Z.eqb_spec pid 0) as [|_]; [contradiction|].
  unfold kill, bind, emit, modify, ret. rewrite Herr.
  cbn. rewrite String.eqb_refl. straight. finish.
Qed.

(** [kill_other] when the kill succeeds. *)
Lemma kill_other_killed e q path pid :
  pidfilename q = Some path ->
  pidfiles q path = Some pid -> pid <> 0 ->
  kill_errno e pid SIGTERM = 0 ->
  let q' := run (kill_other e) q in
  kill_other e q = (Val 0, q')
  /\ news q q' = [Kill pid SIGTERM; Unlink (Some path)]
  /\ pidfiles q' path = None.
Proof.
  intros Hname Hfile Hpid Herr. destruct q. cbn [pidfilename pidfiles] in *.
  subst pidfilename0. cbv zeta.
  unfold run, kill_other, bind, get, read_pid, bind, get, ret, file_pid.
  cbn [pidfilename pidfiles fst snd netname]. rewrite Hfile.
  destruct (Z.eqb_spec pid 0) as [|_]; [contradiction|].
  unfold kill, bind, emit, modify, ret. rewrite Herr.
  cbn. rewrite String.eqb_refl. straight. finish.
Qed.

(** [kill_other] when no pid can be read. *)
Lemma kill_other_none e q path :
  pidfilename q = Some path ->
  pidfiles q path = None \/ pidfiles q path = Some 0 ->
  let q' := run (kill_other e) q in
  kill_other e q = (Val 1, q')
  /\ news q q'
     = [Stderr (match netname q with
                | Some n => "No other tincd is running for net `" +++ n
                            +++ "'." +++ nl
                | None => "No other tincd is running." +++ nl
                end)]
  /\ pidfiles q' = pidfiles q.
Proof.
  intros Hname Hfile. destruct q. cbn [pidfilename pidfiles netname] in *.
  subst pidfilename0. cbv zeta.
  unfold run, kill_other, bind, get, read_pid, bind, get, ret, file_pid.
  cbn [pidfilename pidfiles fst snd netname].
  destruct Hfile as [-> | ->]; cbn [Z.eqb];
    destruct netname0; straight; finish.
Qed.

(** With [--kill], [main] as root is [kill_other] after the names are made,
    and its result the exit status. *)
Lemma main_parsed_kill e argv p :
  show_version p = 0 -> show_help p = 0 -> geteuid e = 0 ->
  kill_tincd p <> 0 ->
  main_parsed e argv p
  = bind (kill_other e) exit (run (make_names e) (set_g_argv argv p)).
Proof.
  intros Hv Hh Hroot Hkill.
  unfold main_parsed. rewrite bind_get, Hv, Hh, Hroot.
  cbn [Z.eqb negb when]. rewrite (bind_val (ret tt) _ p tt p eq_refl).
  unfold main_root. rewrite bind_modify.
  rewrite (bind_val _ _ _ _ _ (make_names_val e _)), bind_get.
  destruct (make_names_fields e (set_g_argv argv p)) as (_ & _ & Hk & _).
  rewrite Hk.
  replace (kill_tincd (set_g_argv argv p)) with (kill_tincd p)
    by now destruct p.
  destruct (Z.eqb_spec (kill_tincd p) 0) as [|_]; [contradiction|].
  cbn [negb when]. apply bind_exit.
Qed.

Lemma finish_exit r (q q' : proc) (m : M Z) :
  m q = (Val r, q') -> finish (bind m exit q) = set_st (Exited r) q'.
Proof. intros H. rewrite (bind_val _ _ _ _ _ H). reflexivity. Qed.

Lemma set_st_fields s p :
  st (set_st s p) = s
  /\ trace (set_st s p) = trace p
  /\ pidfiles (set_st s p) = pidfiles p.
Proof. destruct p. auto. Qed.

Lemma news_set_st p s q : news p (set_st s q) = news p q.
Proof. unfold news. now destruct q. Qed.

(** [getopt_long] answers -k and --kill with 'k' and leaves [kill_tincd]
    alone. *)
Lemma getopt_long_kill_tincd o p ra q :
  getopt_long o p = (Val ra, q) ->
  kill_tincd q = kill_tincd p
  /\ ((exists a, o = Long 0 a \/ o = Short "k" a) -> fst ra = chr "k").
Proof.
  destruct o as [c a|i a]; cbn.
  - intros H. injection H as <- <-. split; [reflexivity|].
    intros [a' [H|H]]; [discriminate H|]. inversion H. reflexivity.
  - destruct i as [|[|[|[|[|[|[|i]]]]]]]; cbn; intros H; injection H as <- <-;
      (split; [destruct p; reflexivity|]);
      intros [a' [H|H]]; try discriminate H; reflexivity.
Qed.

(** The switch sets [kill_tincd] at 'k' and never clears it. *)
Lemma parse_option_kill_tincd e r a q q' :
  parse_option e r a q = (Val tt, q') ->
  (kill_tincd q = 1 -> kill_tincd q' = 1)
  /\ (r = chr "k" -> kill_tincd q' = 1).
Proof.
  unfold parse_option.
  repeat match goal with
         | |- context [if ?x =? ?y then _ else _] =>
             destruct (Z.eqb_spec x y)
         end;
    unfold usage, add_config_val, bind, modify, emit, modify, ret, get, exit;
    try destruct (add_config_val_ok e a);
    try destruct (negb (1 =? 0));
    intros H; try discriminate H;
    injection H as <-;
    (split; [destruct q; cbn; auto|]);
    intros Hk; subst r; try discriminate; try contradiction;
    destruct q; reflexivity.
Qed.

Lemma parse_options_keep_kill_tincd e opts :
  forall p p1,
    parse_options e opts p = (Val tt, p1) ->
    kill_tincd p = 1 -> kill_tincd p1 = 1.
Proof.
  induction opts as [|o opts IH]; intros p p1; cbn [parse_options].
  - intros H. injection H as <-. auto.
  - unfold bind at 1.
    destruct (getopt_long o p) as [[ra|] q] eqn:Hg; [|discriminate].
    unfold bind at 1.
    destruct (parse_option e (fst ra) (snd ra) q) as [[[]|] q'] eqn:Hp;
      [|discriminate].
    intros H Hk. apply (IH _ _ H).
    apply (proj1 (parse_option_kill_tincd _ _ _ _ _ Hp)).
    rewrite (proj1 (getopt_long_kill_tincd _ _ _ _ Hg)). exact Hk.
Qed.

(** -k or --kill among the options leaves [kill_tincd] set. *)
Lemma parse_options_kill e opts :
  forall p p1 a,
    parse_options e opts p = (Val tt, p1) ->
    In (Long 0 a) opts \/ In (Short "k" a) opts ->
    kill_tincd p1 = 1.
Proof.
  induction opts as [|o opts IH]; intros p p1 a; cbn [parse_options In].
  - intros _ [[]|[]].
  - unfold bind at 1.
    destruct (getopt_long o p) as [[ra|] q] eqn:Hg; [|discriminate].
    unfold bind at 1.
    destruct (parse_option e (fst ra) (snd ra) q) as [[[]|] q'] eqn:Hp;
      [|discriminate].
    intros H Hin.
    assert (Hhere : (exists a', o = Long 0 a' \/ o = Short "k" a')
                    \/ (In (Long 0 a) opts \/ In (Short "k" a) opts)).
    { destruct Hin as [[->|Hin]|[->|Hin]]; eauto. }
    destruct Hhere as [Hhere|Hlater].
    + apply (parse_options_keep_kill_tincd e opts _ _ H).
      apply (proj2 (parse_option_kill_tincd _ _ _ _ _ Hp)).
      exact (proj2 (getopt_long_kill_tincd _ _ _ _ Hg) Hhere).
    + exact (IH _ _ a H Hlater).
Qed.

(** C2, as the code has it: [tincd -k] or [tincd --kill] run as root, with
    options that parse without error and ask for neither the version nor
    the help. When the PID file names a
    process that is gone (kill fails with ESRCH) the daemon says "Removing
    stale lock file." on stderr, unlinks the PID file and exits with status
    0; when the kill succeeds it unlinks the PID file and exits with status
    0 as well; when no pid can be read from the PID file it says that no
    other tincd is running and exits with status 1. *)
Theorem C2_kill_other
    (e : env) (argv : list string) (opts : list getopt_ret) (p0 p1 : proc)
    (a : string) :
  parse_options e opts (set_program_name (hd_error argv) p0) = (Val tt, p1) ->
  In (Long 0 a) opts \/ In (Short "k" a) opts ->
  show_version p1 = 0 ->
  show_help p1 = 0 ->
  geteuid e = 0 ->
  let path := pid_path (netname p1) in
  let p' := run_main e argv opts p0 in
  (forall pid,
      pidfiles p1 path = Some pid -> pid <> 0 ->
      kill_errno e pid SIGTERM = ESRCH ->
      st p' = Exited 0
      /\ news p1 p' = [Kill pid SIGTERM;
                       Stderr ("Removing stale lock file." +++ nl);
                       Unlink (Some path)]
      /\ pidfiles p' path = None)
  /\ (forall pid,
         pidfiles p1 path = Some pid -> pid <> 0 ->
         kill_errno e pid SIGTERM = 0 ->
         st p' = Exited 0
         /\ news p1 p' = [Kill pid SIGTERM; Unlink (Some path)]
         /\ pidfiles p' path = None)
  /\ (pidfiles p1 path = None \/ pidfiles p1 path = Some 0 ->
      st p' = Exited 1
      /\ news p1 p'
         = [Stderr (match netname p1 with
                    | Some n => "No other tincd is running for net `" +++ n
                                +++ "'." +++ nl
                    | None => "No other tincd is running." +++ nl
                    end)]
      /\ pidfiles p' = pidfiles p1).
Proof.
  intros Hparse Hopt Hv Hh Hroot. cbv zeta.
  assert (Hkill : kill_tincd p1 <> 0)
    by (rewrite (parse_options_kill _ _ _ _ _ Hparse Hopt); discriminate).
  rewrite (main_parsed_after_options _ _ _ _ _ Hparse). clear Hparse Hopt p0.
  rewrite (main_parsed_kill e argv p1 Hv Hh Hroot Hkill).
  destruct (make_names_fields e (set_g_argv argv p1))
    as (Hname & Hnet & _ & _ & Hfiles & Htrace & _).
  set (q := run (make_names e) (set_g_argv argv p1)) in *.
  replace (netname (set_g_argv argv p1)) with (netname p1) in *
    by now destruct p1.
  replace (pidfiles (set_g_argv argv p1)) with (pidfiles p1) in *
    by now destruct p1.
  replace (trace (set_g_argv argv p1)) with (trace p1) in *
    by now destruct p1.
  assert (Hnews : forall q', news p1 q' = news q q')
    by (intros q'; unfold news; now rewrite Htrace).
  rewrite <- Hfiles, <- Hnet. rewrite <- Hnet in Hname.
  split; [|split].
  - intros pid Hf Hp He.
    destruct (kill_other_stale e q _ pid Hname Hf Hp He) as (Hk & Hn & Hpf).
    rewrite (finish_exit _ _ _ _ Hk), Hnews, news_set_st.
    destruct (set_st_fields (Exited 0) (run (kill_other e) q))
      as (-> & _ & ->).
    auto.
  - intros pid Hf Hp He.
    destruct (kill_other_killed e q _ pid Hname Hf Hp He) as (Hk & Hn & Hpf).
    rewrite (finish_exit _ _ _ _ Hk), Hnews, news_set_st.
    destruct (set_st_fields (Exited 0) (run (kill_other e) q))
      as (-> & _ & ->).
    auto.
  - intros Hf.
    destruct (kill_other_none e q _ Hname Hf) as (Hk & Hn & Hpf).
    rewrite (finish_exit _ _ _ _ Hk), Hnews, news_set_st.
    destruct (set_st_fields (Exited 1) (run (kill_other e) q))
      as (-> & _ & ->).
    auto.
Qed.

Lemma C2_kill_other_witness :
  let argv := ["tincd"; "--kill"; "-n"; "v1"]%string in
  let opts := [Long 0 ""; Short "n" "v1"] in
  let p0 := start files_stale in
  let p1 := run (parse_options e0 opts)
                (set_program_name (hd_error argv) p0) in
  let path := pid_path (netname p1) in
  let p' := run_main e0 argv opts p0 in
  pidfiles p1 path = Some 999999
  /\ kill_errno e0 999999 SIGTERM = ESRCH
  /\ st p' = Exited 0
  /\ news p1 p' = [Kill 999999 SIGTERM;
                   Stderr ("Removing stale lock file." +++ nl);
                   Unlink (Some path)]
  /\ pidfiles p' path = None.
Proof.
  cbv zeta.
  split; [vm_compute; reflexivity|]. split; [vm_compute; reflexivity|].
  apply (C2_kill_other
           e0 ["tincd"; "--kill"; "-n"; "v1"]%string
           [Long 0 ""; Short "n" "v1"] (start files_stale) _ ""%string).
  - vm_compute. reflexivity.
  - left. left. reflexivity.
  - vm_compute. reflexivity.
  - vm_compute. reflexivity.
  - vm_compute. reflexivity.
  - vm_compute. reflexivity.
  - vm_compute. discriminate.
  - vm_compute. reflexivity.
Defined.

(** C2, as the claim has it, fails: [tincd -k -n v1] on a stale PID file,
    run by a user who is not root, says that it must be run by root and
    exits with status 1; [tincd -k --version -n v1] and
    [tincd -k --help -n v1] run by root print the version and the help and
    exit with status 0; [tincd -n v1 -k -x] run by root stops at the
    option it does not know and exits with status 1. None calls kill, and
    the PID file stays. *)
Lemma C2_kill_needs_root_and_no_version_or_help :
  (let p' := run_main e_user ["tincd"; "-k"; "-n"; "v1"]%string
                      [Short "k" ""; Short "n" "v1"] (start files_stale) in
   st p' = Exited 1
   /\ trace p' = [Stderr ("You must be root to run this program. sorry."
                          +++ nl)]
   /\ pidfiles p' "/var/run/tincd.v1.pid" = Some 999999)
  /\ (let p' := run_main e0 ["tincd"; "-k"; "--version"; "-n"; "v1"]%string
                         [Short "k" ""; Long 4 ""; Short "n" "v1"]
                         (start files_stale) in
      st p' = Exited 0
      /\ filter is_unlink (trace p') = []
      /\ pidfiles p' "/var/run/tincd.v1.pid" = Some 999999)
  /\ (let p' := run_main e0 ["tincd"; "-k"; "--help"; "-n"; "v1"]%string
                         [Short "k" ""; Long 3 ""; Short "n" "v1"]
                         (start files_stale) in
      st p' = Exited 0
      /\ filter is_unlink (trace p') = []
      /\ pidfiles p' "/var/run/tincd.v1.pid" = Some 999999)
  /\ (let p' := run_main e0 ["tincd"; "-n"; "v1"; "-k"; "-x"]%string
                         [Short "n" "v1"; Short "k" ""; Short "?" ""]
                         (start files_stale) in
      st p' = Exited 1
      /\ trace p' = [Stderr ("Try `tincd --help' for more information."
                              +++ nl)]
      /\ pidfiles p' "/var/run/tincd.v1.pid" = Some 999999).
Proof.
  cbv zeta. repeat split; vm_compute; reflexivity.
Qed.

(** ** Starting while a daemon runs *)

Arguments already_running_message : simpl never.

(** [write_pidfile] when the PID file names a process that lives. *)
Lemma write_pidfile_running e q path n pid :
  pidfilename q = Some path -> netname q = Some n ->
  pidfiles q path = Some pid -> pid <> 0 ->
  kill_errno e pid 0 <> ESRCH ->
  write_pidfile e q
  = (Val 1, set_trace (trace q ++ [Kill pid 0;
                                   Stderr (already_running_message n pid)]) q).
Proof.
  intros Hname Hnet Hfile Hpid Hlive.
  destruct q. cbn [pidfilename netname pidfiles] in *. subst.
  unfold write_pidfile, bind, get, check_pid, read_pid, bind, get, ret,
    file_pid.
  cbn [pidfilename pidfiles netname]. rewrite Hfile.
  destruct (Z.eqb_spec pid 0) as [|_]; [contradiction|].
  unfold kill, bind, emit, modify, ret. cbn [fst snd trace set_trace].
  destruct (Z.eqb_spec (kill_errno e pid 0) ESRCH) as [|_]; [contradiction|].
  rewrite andb_false_r.
  destruct (Z.eqb_spec pid 0) as [|_]; [contradiction|].
  cbn [negb]. unfold fprintf_stderr, emit, modify, set_trace.
  cbn. rewrite <- app_assoc. reflexivity.
Qed.

Lemma detach_child_running e q path n pid :
  pidfilename q = Some path -> netname q = Some n ->
  pidfiles q path = Some pid -> pid <> 0 ->
  kill_errno e pid 0 <> ESRCH ->
  detach_child e q
  = (Val (-1),
     set_trace (trace q ++ [Kill pid 0;
                            Stderr (already_running_message n pid)]) q).
Proof.
  intros Hname Hnet Hfile Hpid Hlive. unfold detach_child.
  rewrite (bind_val _ _ _ _ _
             (write_pidfile_running e q path n pid Hname Hnet Hfile Hpid Hlive)).
  reflexivity.
Qed.

(** [detach] in the process that goes on to the PID file: the child of the
    fork, or the only process when the daemon does not detach. *)
Lemma detach_running e q path n pid :
  pidfilename q = Some path -> netname q = Some n ->
  pidfiles q path = Some pid -> pid <> 0 ->
  kill_errno e pid 0 <> ESRCH ->
  do_detach q = 0 \/ fork e = 0 ->
  let q' := run (detach e) q in
  detach e q = (Val (-1), q')
  /\ (exists evs,
        trace q' = trace q ++ evs
        /\ In (Stderr (already_running_message n pid)) evs
        /\ filter is_unlink evs = [])
  /\ pidfiles q' = pidfiles q
  /\ st q' = st q.
Proof.
  intros Hname Hnet Hfile Hpid Hlive Hchild. cbv zeta.
  unfold run, detach. rewrite !bind_get.
  destruct (Z.eqb_spec (do_detach q) 0) as [Hd|Hd]; cbn [negb].
  - rewrite (detach_child_running e q path n pid Hname Hnet Hfile Hpid Hlive).
    destruct q. cbn.
    split; [reflexivity|]. split; [|split; reflexivity].
    eexists. split; [reflexivity|]. finish.
  - destruct Hchild as [|Hfork]; [contradiction|].
    rewrite !bind_modify. unfold emit. rewrite !bind_modify. rewrite Hfork.
    cbn [Z.ltb Z.eqb Z.compare negb].
    rewrite (detach_child_running e _ path n pid);
      try (destruct q; assumption).
    destruct q. cbn.
    split; [reflexivity|]. split; [|split; reflexivity].
    eexists. split; [rewrite <- app_assoc; reflexivity|]. finish.
Qed.

Lemma setup_signals_val p : setup_signals p = (Val tt, run setup_signals p).
Proof. destruct p. vm_compute. reflexivity. Qed.

Lemma setup_signals_fields p :
  let q := run setup_signals p in
  pidfilename q = pidfilename p
  /\ netname q = netname p
  /\ do_detach q = do_detach p
  /\ pidfiles q = pidfiles p
  /\ trace q = trace p
  /\ st q = st p.
Proof. destruct p. cbn. auto 10. Qed.

(** C1 (the code departs from it): started as root for a net whose PID file
    names a live process, the daemon reads its configuration, finds the
    process alive with kill(pid, 0), prints "A tincd is already running for
    net `<name>' with pid <pid>." on stderr, leaves the PID file alone, and
    exits with status 0: [detach] returns -1 and [main] answers with
    exit(0). *)
Theorem C1_already_running_exits_with_0
    (e : env) (argv : list string) (opts : list getopt_ret) (p0 p1 : proc)
    (n : string) (pid : Z) :
  parse_options e opts (set_program_name (hd_error argv) p0) = (Val tt, p1) ->
  show_version p1 = 0 ->
  show_help p1 = 0 ->
  kill_tincd p1 = 0 ->
  geteuid e = 0 ->
  read_config_file_ret e = 0 ->
  do_detach p1 = 0 \/ fork e = 0 ->
  netname p1 = Some n ->
  pidfiles p1 (pid_path (Some n)) = Some pid ->
  pid <> 0 ->
  kill_errno e pid 0 <> ESRCH ->
  let p' := run_main e argv opts p0 in
  st p' = Exited 0
  /\ In (Stderr ("A tincd is already running for net `" +++ n
                 +++ "' with pid " +++ string_of_Z pid +++ "." +++ nl))
        (news p1 p')
  /\ filter is_unlink (news p1 p') = []
  /\ pidfiles p' = pidfiles p1.
Proof.
  intros Hparse Hv Hh Hk Hroot Hconf Hchild Hnet Hfile Hpid Hlive. cbv zeta.
  rewrite (main_parsed_after_options _ _ _ _ _ Hparse). clear Hparse p0.
  unfold main_parsed. rewrite bind_get, Hv, Hh, Hroot.
  cbn [Z.eqb negb when]. rewrite (bind_val (ret tt) _ p1 tt p1 eq_refl).
  unfold main_root. rewrite bind_modify.
  rewrite (bind_val _ _ _ _ _ (make_names_val e _)), bind_get.
  destruct (make_names_fields e (set_g_argv argv p1))
    as (Hname & Hnet' & Hk' & Hd' & Hfiles & Htrace & Hst).
  set (q := run (make_names e) (set_g_argv argv p1)) in *.
  replace (netname (set_g_argv argv p1)) with (netname p1) in *
    by now destruct p1.
  replace (kill_tincd (set_g_argv argv p1)) with (kill_tincd p1) in *
    by now destruct p1.
  replace (do_detach (set_g_argv argv p1)) with (do_detach p1) in *
    by now destruct p1.
  replace (pidfiles (set_g_argv argv p1)) with (pidfiles p1) in *
    by now destruct p1.
  replace (trace (set_g_argv argv p1)) with (trace p1) in *
    by now destruct p1.
  rewrite Hk', Hk. cbn [Z.eqb negb when].
  rewrite (bind_val (ret tt) _ q tt q eq_refl).
  rewrite (bind_val (read_config_file e (configfilename q)) _ q _ _ eq_refl).
  rewrite Hconf. cbn [Z.eqb negb].
  rewrite (bind_val _ _ _ _ _ (setup_signals_val _)).
  set (q1 := set_trace (trace q ++ [ReadConfigFile (configfilename q)]) q).
  destruct (setup_signals_fields q1)
    as (Hname2 & Hnet2 & Hd2 & Hfiles2 & Htrace2 & Hst2).
  set (q2 := run setup_signals q1) in *.
  assert (Hq1 : pidfilename q1 = pidfilename q /\ netname q1 = netname q
                /\ do_detach q1 = do_detach q /\ pidfiles q1 = pidfiles q
                /\ trace q1 = trace q ++ [ReadConfigFile (configfilename q)])
    by (subst q1; destruct q; cbn; auto).
  destruct Hq1 as (Hname1 & Hnet1 & Hd1 & Hfiles1 & Htrace1).
  assert (Hname3 : pidfilename q2 = Some (pid_path (Some n)))
    by congruence.
  assert (Hnet3 : netname q2 = Some n) by congruence.
  assert (Hfile3 : pidfiles q2 (pid_path (Some n)) = Some pid)
    by (rewrite Hfiles2, Hfiles1, Hfiles; exact Hfile).
  assert (Hchild3 : do_detach q2 = 0 \/ fork e = 0)
    by (rewrite Hd2, Hd1, Hd'; exact Hchild).
  destruct (detach_running e q2 _ n pid Hname3 Hnet3 Hfile3 Hpid Hlive Hchild3)
    as (Hdet & (evs & Hevs & Hin & Hun) & Hpf & _).
  rewrite (bind_val _ _ _ _ _ Hdet). cbn [Z.eqb negb when].
  unfold bind, exit, finish.
  set (q3 := run (detach e) q2) in *.
  assert (Hnews : news p1 (set_st (Exited 0) q3)
                  = ReadConfigFile (configfilename q) :: evs).
  { rewrite news_set_st. apply news_app.
    rewrite Hevs, Htrace2, Htrace1, Htrace, <- app_assoc. reflexivity. }
  rewrite Hnews.
  destruct (set_st_fields (Exited 0) q3) as (-> & _ & ->).
  repeat split.
  - right. exact Hin.
  - cbn. exact Hun.
  - congruence.
Qed.

Lemma C1_already_running_exits_with_0_witness :
  let argv := ["tincd"; "-n"; "v1"]%string in
  let opts := [Short "n" "v1"] in
  let p0 := start files_v1 in
  let p1 := run (parse_options e0 opts)
                (set_program_name (hd_error argv) p0) in
  let p' := run_main e0 argv opts p0 in
  st p' = Exited 0
  /\ In (Stderr ("A tincd is already running for net `" +++ "v1"
                 +++ "' with pid " +++ string_of_Z 4242 +++ "." +++ nl))
        (news p1 p')
  /\ filter is_unlink (news p1 p') = []
  /\ pidfiles p' = pidfiles p1.
Proof.
  cbv zeta.
  apply (C1_already_running_exits_with_0
           e0 ["tincd"; "-n"; "v1"]%string [Short "n" "v1"] (start files_v1)).
  - vm_compute. reflexivity.
  - vm_compute. reflexivity.
  - vm_compute. reflexivity.
  - vm_compute. reflexivity.
  - vm_compute. reflexivity.
  - vm_compute. reflexivity.
  - right. vm_compute. reflexivity.
  - vm_compute. reflexivity.
  - vm_compute. reflexivity.
  - vm_compute. discriminate.
  - vm_compute. discriminate.
Defined.

End TincdFacts.

(** * Properties of the observer *)

Module TopFacts.

Import Top.

Import TopScenario.

Lemma names_list_insert_after l i (x : nodestats_t) :
  names (list_insert_after l i x) = list_insert_after (names l) i (name x).
Proof.
  unfold names, list_insert_after.
  rewrite map_app, firstn_map. cbn [map]. now rewrite skipn_map.
Qed.

Lemma insert_after_split {A} (done : list A) (x : A) (rest : list A) (y : A) :
  list_insert_after (done ++ x :: rest) (List.length done) y
  = done ++ x :: y :: rest.
Proof.
  unfold list_insert_after.
  replace (S (List.length done)) with (List.length (done ++ [x]))
    by (rewrite length_app; cbn; lia).
  replace (done ++ x :: rest) with ((done ++ [x]) ++ rest)
    by (rewrite <- app_assoc; reflexivity).
  rewrite firstn_app, skipn_app, firstn_all, skipn_all.
  rewrite Nat.sub_diag. cbn [firstn skipn]. rewrite app_nil_r.
  rewrite <- app_assoc. reflexivity.
Qed.

(** The loop walks past the entries whose names are smaller, and at the
    first entry whose name is greater it links the new entry in behind
    that entry. *)
Lemma search_greater nm node rest :
  forall pre done,
    Forall (fun x => strcmp nm (name x) > 0) pre ->
    strcmp nm (name node) < 0 ->
    search nm (done ++ pre ++ node :: rest) (List.length done)
           (pre ++ node :: rest)
    = (done ++ pre ++ node :: new_node nm :: rest,
       Some (S (List.length (done ++ pre)))).
Proof.
  induction pre as [|x pre IH]; intros done Hpre Hlt.
  - cbn [app search].
    destruct (Z.gtb_spec (strcmp nm (name node)) 0) as [Hgt|_]; [lia|].
    destruct (Z.eqb_spec (strcmp nm (name node)) 0) as [He|_]; [lia|].
    rewrite insert_after_split, app_nil_r. reflexivity.
  - inversion Hpre as [|? ? Hx Hrest]; subst.
    cbn [app search].
    destruct (Z.gtb_spec (strcmp nm (name x)) 0) as [_|Hle]; [|lia].
    specialize (IH (done ++ [x]) Hrest Hlt).
    rewrite <- !app_assoc in IH. cbn [app] in IH.
    rewrite length_app in IH. cbn [List.length] in IH.
    rewrite Nat.add_1_r in IH. rewrite IH. reflexivity.
Qed.

Lemma names_at_node k f l :
  (forall x, name (f x) = name x) -> names (at_node k f l) = names l.
Proof.
  intros Hf. revert k.
  induction l as [|x l IH]; intros [|k]; cbn; try reflexivity.
  - now rewrite Hf.
  - now rewrite IH.
Qed.

Lemma ordered_descent xs a b ys :
  strcmp a b > 0 -> ordered (xs ++ a :: b :: ys) = false.
Proof.
  intros Hgt. induction xs as [|x xs IH].
  - cbn. destruct (Z.leb_spec (strcmp a b) 0); [lia|reflexivity].
  - cbn [app]. destruct xs as [|x' xs]; cbn [app ordered] in *.
    + rewrite IH. apply andb_false_r.
    + rewrite IH. apply andb_false_r.
Qed.

Lemma strcmp_antisym a :
  forall b, strcmp a b < 0 -> strcmp b a > 0.
Proof.
  induction a as [|c a IH]; intros [|d b]; cbn; try lia.
  rewrite (Z.eqb_sym (chr d) (chr c)).
  destruct (Z.eqb_spec (chr c) (chr d)); [apply IH | lia].
Qed.

(** C8 (the code departs from it): a line of a dump that names a node [nm]
    absent from the list, whose place is before the entry [node] (every
    entry of [pre] has a smaller name, [node] a greater one), leaves the
    new entry behind [node], and the node list out of order. *)
Theorem C8_insert_lands_behind_greater_entry
    (v : locals) (interval : timeval)
    (pre : list nodestats_t) (node : nodestats_t) (rest : list nodestats_t) :
  Forall (fun x => strcmp (l_name v) (name x) > 0) pre ->
  strcmp (l_name v) (name node) < 0 ->
  names (account v interval (pre ++ node :: rest))
  = names pre ++ name node :: l_name v :: names rest
  /\ ordered (names (account v interval (pre ++ node :: rest))) = false.
Proof.
  intros Hpre Hlt.
  assert (Hn : names (account v interval (pre ++ node :: rest))
               = names pre ++ name node :: l_name v :: names rest).
  { unfold account, locate.
    pose proof (search_greater (l_name v) node rest pre [] Hpre Hlt) as Hs.
    cbn [app List.length] in Hs. rewrite Hs.
    rewrite names_at_node by reflexivity.
    unfold names. rewrite map_app. reflexivity. }
  split; [exact Hn|].
  rewrite Hn. apply ordered_descent. now apply strcmp_antisym.
Qed.

Lemma C8_insert_lands_behind_greater_entry_witness :
  names (node_list (update 18 13 (mkTimeval 11 500000) v0 t0))
  = ["b"; "a"]%string
  /\ names (account (mkLocals 18 13 "a" 1 2 3 4) (mkTimeval 1 500000) [node_b])
     = ["b"; "a"]%string
  /\ ordered (names (account (mkLocals 18 13 "a" 1 2 3 4)
                             (mkTimeval 1 500000) [node_b])) = false.
Proof.
  split; [reflexivity|].
  apply (C8_insert_lands_behind_greater_entry
           (mkLocals 18 13 "a" 1 2 3 4) (mkTimeval 1 500000) [] node_b []).
  - constructor.
  - vm_compute. reflexivity.
Defined.

(** C10: a line of which sscanf converts exactly two fields ends the frame:
    the loop is left with the lines behind it unread and the node list as
    it was; a line with a count that is neither 2 nor 7 makes the observer
    leave curses, print "Error receiving traffic information" on stderr
    and exit with status 1. *)
Theorem C10_sentinel_and_malformed_lines
    (line : string) (rest : list string) (v : locals) (t : top_t) :
  let n := fst (sscanf_traffic line v) in
  (n = 2 ->
   receive (line :: rest) v t
   = mkTop (node_list t) (now t) (prev t) (diff t) rest (out t) (st t))
  /\ (n <> 2 -> n <> 7 ->
      receive (line :: rest) v t
      = mkTop (node_list t) (now t) (prev t) (diff t) rest
              (out t ++ [Endwin;
                         Stderr ("Error receiving traffic information" +++ nl)])
              (Exited 1)).
Proof.
  cbn zeta. cbn [receive].
  destruct (sscanf_traffic line v) as [n v'] eqn:Hscan. cbn [fst].
  split.
  - intros ->. reflexivity.
  - intros H2 H7.
    destruct (Z.eqb_spec n 2) as [|_]; [contradiction|].
    destruct (Z.eqb_spec n 7) as [|_]; [contradiction|].
    reflexivity.
Qed.

Lemma C10_sentinel_and_malformed_lines_witness :
  receive ["18 13"; "18 13 a 1 2 3 4"]%string v0 t0
  = mkTop [node_b] (mkTimeval 0 0) (mkTimeval 10 0) (mkTimeval 0 0)
          ["18 13 a 1 2 3 4"]%string [] Running
  /\ st (receive ["18 13 a 1 2"; "18 13"]%string v0 t0) = Exited 1.
Proof.
  split.
  - apply (proj1 (C10_sentinel_and_malformed_lines
                    "18 13" ["18 13 a 1 2 3 4"%string] v0 t0)).
    vm_compute. reflexivity.
  - rewrite (proj2 (C10_sentinel_and_malformed_lines
                      "18 13 a 1 2" ["18 13"%string] v0 t0)).
    + reflexivity.
    + vm_compute. discriminate.
    + vm_compute. discriminate.
Defined.

End TopFacts.

(** * Properties of the display order and the keys *)

Module TopUIFacts.

Import Top TopUI.

Lemma cmpu64_sign a b :
  (cmpu64 a b < 0 <-> a < b) /\ (cmpu64 a b > 0 <-> b < a)
  /\ (cmpu64 a b = 0 <-> a = b).
Proof.
  unfold cmpu64.
  destruct (Z.ltb_spec a b), (Z.gtb_spec a b); lia.
Qed.

(** [strcmp] compares as the dictionary does. *)
Lemma strcmp_refl a : strcmp a a = 0.
Proof.
  induction a as [|c a IH]; cbn; [reflexivity|].
  now rewrite Z.eqb_refl.
Qed.

Lemma chr_bound c : 0 <= chr c < 256.
Proof.
  unfold chr. pose proof (nat_ascii_bounded c). lia.
Qed.

Lemma strcmp_flip a :
  forall b, strcmp b a = - strcmp a b.
Proof.
  induction a as [|c a IH]; intros [|d b]; cbn; try lia.
  rewrite (Z.eqb_sym (chr d) (chr c)).
  destruct (Z.eqb_spec (chr c) (chr d)); [apply IH | lia].
Qed.

Lemma strcmp_trans a :
  forall b c,
    c_string a = true -> c_string b = true ->
    strcmp a b <= 0 -> strcmp b c <= 0 -> strcmp a c <= 0.
Proof.
  induction a as [|x a IH]; intros b c Ha Hb.
  - destruct c as [|z c]; cbn; [lia|].
    pose proof (chr_bound z). lia.
  - cbn in Ha. apply andb_true_iff in Ha. destruct Ha as [Hx Ha].
    apply negb_true_iff in Hx. apply Z.eqb_neq in Hx.
    pose proof (chr_bound x).
    destruct b as [|y b]; cbn; [lia|].
    cbn in Hb. apply andb_true_iff in Hb. destruct Hb as [Hy Hb].
    apply negb_true_iff in Hy. apply Z.eqb_neq in Hy.
    pose proof (chr_bound y).
    destruct c as [|z c]; cbn; [lia|].
    destruct (Z.eqb_spec (chr x) (chr y)), (Z.eqb_spec (chr y) (chr z)),
      (Z.eqb_spec (chr x) (chr z)); try lia.
    now apply IH.
Qed.

(** X1: with the cumulative counters, and by name, [sortfunc] is a
    comparison qsort can rely on: swapping the two entries flips its sign,
    and it is transitive. *)
Theorem sortfunc_is_an_order_on_counters_and_names
    (flt : float -> float -> bool) (fadd : float -> float -> float)
    (mode : Z) (na nb nc : nodestats_t) :
  c_string (name na) = true -> c_string (name nb) = true ->
  let cmp := sortfunc flt fadd mode true in
  cmp nb na = - cmp na nb
  /\ (cmp na nb <= 0 -> cmp nb nc <= 0 -> cmp na nc <= 0).
Proof.
  intros Ha Hb. cbv zeta. unfold sortfunc.
  repeat match goal with
         | |- context [if mode =? ?k then _ else _] => destruct (mode =? k)
         end;
    try (split; [apply strcmp_flip | now apply strcmp_trans]);
    unfold cmpu64;
    repeat match goal with
           | |- context [?a <? ?b] => destruct (Z.ltb_spec a b)
           | |- context [?a >? ?b] => destruct (Z.gtb_spec a b)
           end; lia.
Qed.

Lemma sortfunc_is_an_order_on_counters_and_names_witness :
  let cmp := sortfunc (fun _ _ => false) (fun a _ => a) 0 true in
  cmp (new_node "bravo") (new_node "alpha")
  = - cmp (new_node "alpha") (new_node "bravo")
  /\ (cmp (new_node "alpha") (new_node "bravo") <= 0 ->
      cmp (new_node "bravo") (new_node "charlie") <= 0 ->
      cmp (new_node "alpha") (new_node "charlie") <= 0).
Proof.
  exact (sortfunc_is_an_order_on_counters_and_names
           (fun _ _ => false) (fun a _ => a) 0
           (new_node "alpha") (new_node "bravo") (new_node "charlie")
           eq_refl eq_refl).
Defined.

(** X2: whatever keys are pressed, [sortmode] stays an index into
    [sortname], the table [redraw] prints the sort order from. *)
Theorem keys_keep_sortmode_in_sortname
    (KEY_BREAK : Z) (ks : list (Z * Z)) :
  0 <= sortmode (keys KEY_BREAK ks ui_start) < Z.of_nat (List.length sortname).
Proof.
  assert (Hkey : forall c d u, 0 <= sortmode u < 7 ->
                               0 <= sortmode (key KEY_BREAK c d u) < 7).
  { intros c d u Hu. unfold key.
    repeat match goal with
           | |- context [if ?b then _ else _] => destruct b
           end; cbn; lia. }
  assert (Hall : forall u, 0 <= sortmode u < 7 ->
                           0 <= sortmode (keys KEY_BREAK ks u) < 7).
  { unfold keys. induction ks as [|k ks IH]; intros u Hu; cbn [fold_left].
    - exact Hu.
    - apply IH, Hkey, Hu. }
  apply Hall. cbn. lia.
Qed.

Ltac chr_values :=
  repeat match goal with
         | |- context [chr ?x] =>
             let v := eval vm_compute in (chr x) in change (chr x) with v
         end.

(** X3: the observer stops for the keys q, ESC and break and for no other:
    it runs as long as none of them is among the keys pressed, and once
    one of them is pressed no later key makes it run again. *)
Theorem keys_stop_only_on_quit
    (KEY_BREAK : Z) (ks : list (Z * Z)) :
  255 < KEY_BREAK ->
  running (keys KEY_BREAK ks ui_start)
  = negb (existsb (fun k => (fst k =? chr "q") || (fst k =? 27)
                            || (fst k =? KEY_BREAK)) ks).
Proof.
  intros Hbreak.
  assert (Hkey : forall c d u,
             running (key KEY_BREAK c d u)
             = running u
               && negb ((c =? chr "q") || (c =? 27) || (c =? KEY_BREAK))).
  { intros c d u. unfold key. chr_values.
    repeat match goal with
           | |- context [?a =? ?b] => destruct (Z.eqb_spec a b)
           end; cbn; rewrite ?andb_true_r, ?andb_false_r;
      try reflexivity; lia. }
  assert (Hall : forall u,
             running (keys KEY_BREAK ks u)
             = running u
               && negb (existsb
                          (fun k => (fst k =? chr "q") || (fst k =? 27)
                                    || (fst k =? KEY_BREAK)) ks)).
  { unfold keys. induction ks as [|k ks IH]; intros u; cbn [fold_left existsb].
    - now rewrite andb_true_r.
    - rewrite IH, Hkey.
      destruct (running u), ((fst k =? chr "q") || (fst k =? 27)
                             || (fst k =? KEY_BREAK)); reflexivity. }
  rewrite Hall. reflexivity.
Qed.

Lemma keys_stop_only_on_quit_witness :
  255 < 257
  /\ running (keys 257 [(chr "c", 0); (27, 0); (chr "n", 0)] ui_start)
     = negb (existsb (fun k => (fst k =? chr "q") || (fst k =? 27)
                               || (fst k =? 257))
                     [(chr "c", 0); (27, 0); (chr "n", 0)]).
Proof.
  split; [lia|].
  apply (keys_stop_only_on_quit 257 [(chr "c", 0); (27, 0); (chr "n", 0)]).
  lia.
Defined.

End TopUIFacts.

(** * More properties of the observer's node list *)

Module TopMore.

Import Top TopFacts.

Lemma at_node_split f (pre : list nodestats_t) x rest :
  at_node (List.length pre) f (pre ++ x :: rest) = pre ++ f x :: rest.
Proof.
  induction pre as [|y pre IH]; cbn; [reflexivity|]. now rewrite IH.
Qed.

(** The loop stops at the first entry that bears the name. *)
Lemma search_equal nm node rest :
  forall pre done,
    Forall (fun x => strcmp nm (name x) > 0) pre ->
    strcmp nm (name node) = 0 ->
    search nm (done ++ pre ++ node :: rest) (List.length done)
           (pre ++ node :: rest)
    = (done ++ pre ++ node :: rest, Some (List.length (done ++ pre))).
Proof.
  induction pre as [|x pre IH]; intros done Hpre Heq.
  - cbn [app search]. rewrite Heq. cbn. now rewrite app_nil_r.
  - inversion Hpre as [|? ? Hx Hrest]; subst.
    cbn [app search].
    destruct (Z.gtb_spec (strcmp nm (name x)) 0) as [_|Hle]; [|lia].
    specialize (IH (done ++ [x]) Hrest Heq).
    rewrite <- !app_assoc in IH. cbn [app] in IH.
    rewrite length_app in IH. cbn [List.length] in IH.
    rewrite Nat.add_1_r in IH. rewrite IH. reflexivity.
Qed.

(** The loop runs to the end of a list whose names are all smaller. *)
Lemma search_all_smaller nm l :
  forall todo i,
    Forall (fun x => strcmp nm (name x) > 0) todo ->
    search nm l i todo = (l, None).
Proof.
  induction todo as [|x todo IH]; intros i Hall; [reflexivity|].
  inversion Hall as [|? ? Hx Hrest]; subst. cbn [search].
  destruct (Z.gtb_spec (strcmp nm (name x)) 0) as [_|Hle]; [|lia].
  now apply IH.
Qed.

(** X4: a line that names a node of the list, found behind entries with
    smaller names only, changes that entry in place: its counters become
    the line's, its rates the differences to the old counters over the
    interval, it is known, and the list has the same entries in the same
    places otherwise. *)
Theorem account_updates_known_node_in_place
    (v : locals) (interval : timeval)
    (pre : list nodestats_t) (node : nodestats_t) (rest : list nodestats_t) :
  Forall (fun x => strcmp (l_name v) (name x) > 0) pre ->
  strcmp (l_name v) (name node) = 0 ->
  account v interval (pre ++ node :: rest)
  = pre ++ mkNode (name node)
                  (l_in_packets v) (l_in_bytes v)
                  (l_out_packets v) (l_out_bytes v)
                  (FDiv (sub64 (l_in_packets v) (in_packets node)) interval)
                  (FDiv (sub64 (l_in_bytes v) (in_bytes node)) interval)
                  (FDiv (sub64 (l_out_packets v) (out_packets node)) interval)
                  (FDiv (sub64 (l_out_bytes v) (out_bytes node)) interval)
                  true
           :: rest.
Proof.
  intros Hpre Heq. unfold account, locate.
  pose proof (search_equal (l_name v) node rest pre [] Hpre Heq) as Hs.
  cbn [app List.length] in Hs. rewrite Hs.
  apply at_node_split.
Qed.

Lemma account_updates_known_node_in_place_witness :
  account (mkLocals 18 13 "b" 7 70 9 90) (mkTimeval 1 0)
          ([new_node "a"] ++ new_node "b" :: [new_node "c"])
  = [new_node "a"]
    ++ mkNode "b" 7 70 9 90
              (FDiv (sub64 7 0) (mkTimeval 1 0))
              (FDiv (sub64 70 0) (mkTimeval 1 0))
              (FDiv (sub64 9 0) (mkTimeval 1 0))
              (FDiv (sub64 90 0) (mkTimeval 1 0)) true
       :: [new_node "c"].
Proof.
  apply (account_updates_known_node_in_place
           (mkLocals 18 13 "b" 7 70 9 90) (mkTimeval 1 0)
           [new_node "a"] (new_node "b") [new_node "c"]).
  - repeat constructor.
  - reflexivity.
Defined.

Lemma ordered_snoc nm l :
  Forall (fun n => strcmp nm n > 0) l ->
  ordered l = true -> ordered (l ++ [nm]) = true.
Proof.
  induction l as [|a l IH]; intros Hall Hord; [reflexivity|].
  inversion Hall as [|? ? Ha Hrest]; subst.
  destruct l as [|b l].
  - cbn. rewrite TopUIFacts.strcmp_flip.
    destruct (Z.leb_spec (- strcmp nm a) 0); [reflexivity | lia].
  - cbn [app ordered] in *.
    apply andb_true_iff in Hord. destruct Hord as [Hab Hord].
    rewrite Hab. cbn [andb]. now apply IH.
Qed.

(** X5: a line that names a node greater than every name of the list adds
    the node at the tail, and a list that was in order stays in order. *)
Theorem account_appends_greatest_name
    (v : locals) (interval : timeval) (l : list nodestats_t) :
  Forall (fun x => strcmp (l_name v) (name x) > 0) l ->
  account v interval l = l ++ [store v interval (new_node (l_name v))]
  /\ (ordered (names l) = true ->
      ordered (names (account v interval l)) = true).
Proof.
  intros Hall.
  assert (Hacc : account v interval l
                 = l ++ [store v interval (new_node (l_name v))]).
  { unfold account, locate.
    rewrite (search_all_smaller (l_name v) l l 0 Hall).
    unfold list_insert_tail.
    rewrite <- (app_nil_r (store v interval (new_node (l_name v)) :: nil)).
    change (store v interval (new_node (l_name v)) :: [])
      with ([store v interval (new_node (l_name v))]).
    apply (at_node_split (store v interval) l (new_node (l_name v)) []). }
  split; [exact Hacc|].
  intros Hord. rewrite Hacc. unfold names. rewrite map_app. cbn [map name store].
  apply ordered_snoc; [|exact Hord].
  apply Forall_map. exact Hall.
Qed.

Lemma account_appends_greatest_name_witness :
  account (mkLocals 18 13 "c" 1 2 3 4) (mkTimeval 1 0)
          [new_node "a"; new_node "b"]
  = [new_node "a"; new_node "b"]
    ++ [store (mkLocals 18 13 "c" 1 2 3 4) (mkTimeval 1 0) (new_node "c")]
  /\ (ordered (names [new_node "a"; new_node "b"]) = true ->
      ordered (names (account (mkLocals 18 13 "c" 1 2 3 4) (mkTimeval 1 0)
                              [new_node "a"; new_node "b"])) = true).
Proof.
  apply (account_appends_greatest_name
           (mkLocals 18 13 "c" 1 2 3 4) (mkTimeval 1 0)
           [new_node "a"; new_node "b"]).
  repeat constructor.
Defined.

(** The loop leaves the list as it is, or with the new node linked in. *)
Lemma search_names nm l :
  forall todo i,
    names (fst (search nm l i todo)) = names l
    \/ exists j, names (fst (search nm l i todo))
                 = firstn j (names l) ++ nm :: skipn j (names l).
Proof.
  induction todo as [|x todo IH]; intros i; cbn [search].
  - left. reflexivity.
  - destruct (strcmp nm (name x) >? 0); [apply IH|].
    destruct (strcmp nm (name x) =? 0); [left; reflexivity|].
    right. exists (S i). cbn [fst]. unfold list_insert_after, names.
    rewrite map_app, firstn_map. cbn [map name new_node].
    now rewrite skipn_map.
Qed.

Lemma in_inserted {A} (n x : A) j l :
  In n l -> In n (firstn j l ++ x :: skipn j l).
Proof.
  intros Hin. rewrite <- (firstn_skipn j l) in Hin.
  apply in_app_or in Hin. apply in_or_app.
  destruct Hin as [H|H]; [left; exact H | right; right; exact H].
Qed.

Lemma account_keeps_names v interval l n :
  In n (names l) -> In n (names (account v interval l)).
Proof.
  intros Hin. unfold account, locate.
  pose proof (search_names (l_name v) l l 0) as Hs.
  destruct (search (l_name v) l 0 l) as [l' [k|]]; cbn [fst] in Hs;
    rewrite names_at_node by reflexivity.
  - destruct Hs as [-> | [j ->]]; [exact Hin | now apply in_inserted].
  - unfold list_insert_tail, names. rewrite map_app. apply in_or_app. left.
    fold (names l').
    destruct Hs as [-> | [j ->]]; [exact Hin | now apply in_inserted].
Qed.

Lemma receive_keeps_names ls :
  forall v t n,
    In n (names (node_list t)) ->
    In n (names (node_list (receive ls v t))).
Proof.
  induction ls as [|line ls IH]; intros v t n Hin; cbn [receive].
  - exact Hin.
  - destruct (sscanf_traffic line v) as [k v'].
    destruct (k =? 2); [exact Hin|].
    destruct (negb (k =? 7)); [exact Hin|].
    apply IH. cbn [node_list]. now apply account_keeps_names.
Qed.

(** X6: the observer never forgets a node: every name of the node list is
    still on it after an update, whatever the dump holds, malformed lines
    included. *)
Theorem update_keeps_every_node
    (CONTROL REQ_DUMP_TRAFFIC : Z) (clock : timeval) (v : locals)
    (t : top_t) (n : string) :
  In n (names (node_list t)) ->
  In n (names (node_list (update CONTROL REQ_DUMP_TRAFFIC clock v t))).
Proof.
  intros Hin. unfold update. apply receive_keeps_names. cbn [node_list].
  unfold names in *. rewrite map_map. cbn [forget name].
  exact Hin.
Qed.

Lemma update_keeps_every_node_witness :
  In "b"%string
     (names (node_list (update 18 13 (mkTimeval 11 0) TopScenario.v0
                               TopScenario.t0))).
Proof.
  apply (update_keeps_every_node 18 13 (mkTimeval 11 0) TopScenario.v0
                                 TopScenario.t0 "b").
  left. reflexivity.
Defined.

(** X7: a dump that is its sentinel alone changes no counter and no rate:
    every node keeps its place, name, counters and rates and is marked as
    not known; the request was sent, the clock taken, and the lines behind
    the sentinel are left for later. *)
Theorem update_on_empty_dump_marks_all_unknown
    (CONTROL REQ_DUMP_TRAFFIC : Z) (clock : timeval) (v : locals)
    (t : top_t) (sentinel : string) (rest : list string) :
  lines t = sentinel :: rest ->
  fst (sscanf_traffic sentinel v) = 2 ->
  update CONTROL REQ_DUMP_TRAFFIC clock v t
  = mkTop (map forget (node_list t)) clock clock (timersub clock (prev t))
          rest
          (out t ++ [Sendline (string_of_Z CONTROL +++ " "
                               +++ string_of_Z REQ_DUMP_TRAFFIC)])
          (st t).
Proof.
  intros Hlines Hn. unfold update. rewrite Hlines. cbn [receive].
  destruct (sscanf_traffic sentinel v) as [k v']. cbn [fst] in Hn. subst k.
  reflexivity.
Qed.

Lemma update_on_empty_dump_marks_all_unknown_witness :
  update 18 13 (mkTimeval 11 0) TopScenario.v0
         (mkTop [new_node "a"] (mkTimeval 0 0) (mkTimeval 10 0)
                (mkTimeval 0 0) ["18 13"; "later"]%string [] Running)
  = mkTop (map forget [new_node "a"]) (mkTimeval 11 0) (mkTimeval 11 0)
          (timersub (mkTimeval 11 0) (mkTimeval 10 0))
          ["later"%string]
          ([] ++ [Sendline (string_of_Z 18 +++ " " +++ string_of_Z 13)])
          Running.
Proof.
  apply (update_on_empty_dump_marks_all_unknown
           18 13 (mkTimeval 11 0) TopScenario.v0
           (mkTop [new_node "a"] (mkTimeval 0 0) (mkTimeval 10 0)
                  (mkTimeval 0 0) ["18 13"; "later"]%string [] Running)
           "18 13" ["later"%string]).
  - reflexivity.
  - reflexivity.
Defined.

(** The count sscanf gives depends on the line alone. *)
Lemma sscanf_count_of_line line v v' :
  fst (sscanf_traffic line v) = fst (sscanf_traffic line v').
Proof.
  unfold sscanf_traffic.
  repeat match goal with
         | |- context [match ?s with Converted _ _ => _ | MatchFail => _
                                     | InputFail => _ end] =>
             destruct s
         end; reflexivity.
Qed.

(** X8: when every line the socket delivers has seven fields and the
    socket closes before a sentinel, the loop ends with nothing printed and
    the process running, all lines read. *)
Theorem receive_ends_quietly_at_end_of_stream
    (ls : list string) (v : locals) (t : top_t) :
  Forall (fun line => fst (sscanf_traffic line v) = 7) ls ->
  let t' := receive ls v t in
  st t' = st t /\ out t' = out t /\ lines t' = [].
Proof.
  cbv zeta. revert v t.
  induction ls as [|line ls IH]; intros v t Hall; cbn [receive].
  - repeat split.
  - inversion Hall as [|? ? Hline Hrest]; subst.
    destruct (sscanf_traffic line v) as [k v'] eqn:Hs. cbn [fst] in Hline.
    subst k. cbn [Z.eqb Pos.eqb negb].
    assert (Hrest' : Forall (fun l => fst (sscanf_traffic l v') = 7) ls).
    { eapply Forall_impl; [|exact Hrest].
      intros l Hl. cbv beta in Hl. now rewrite (sscanf_count_of_line l v' v). }
    destruct (IH v' (mkTop (account v' (diff t) (node_list t)) (now t)
                           (prev t) (diff t) ls (out t) (st t)) Hrest')
      as (H1 & H2 & H3).
    auto.
Qed.

Lemma receive_ends_quietly_at_end_of_stream_witness :
  let t' := receive ["18 13 a 1 2 3 4"; "18 13 b 5 6 7 8"]%string
                    TopScenario.v0 TopScenario.t0 in
  st t' = st TopScenario.t0 /\ out t' = out TopScenario.t0 /\ lines t' = [].
Proof.
  apply (receive_ends_quietly_at_end_of_stream
           ["18 13 a 1 2 3 4"; "18 13 b 5 6 7 8"]%string
           TopScenario.v0 TopScenario.t0).
  repeat constructor.
Defined.

(** X9: a rate's numerator is the difference of the new counter and the
    old one as a uint64_t: the plain difference when the counter grew, and
    2^64 more than the (negative) difference when it fell, as after a
    restart of the daemon. *)
Theorem store_rate_wraps_when_counter_falls
    (v : locals) (interval : timeval) (found : nodestats_t) :
  0 <= in_packets found < 2 ^ 64 ->
  0 <= l_in_packets v < 2 ^ 64 ->
  in_packets_rate (store v interval found)
  = FDiv (if in_packets found <=? l_in_packets v
          then l_in_packets v - in_packets found
          else l_in_packets v - in_packets found + 2 ^ 64)
         interval.
Proof.
  intros Hold Hnew. cbn [store in_packets_rate]. f_equal. unfold sub64.
  destruct (Z.leb_spec (in_packets found) (l_in_packets v)).
  - apply Z.mod_small. lia.
  - rewrite <- (Z.mod_add _ 1 (2 ^ 64)) by lia.
    apply Z.mod_small. lia.
Qed.

Lemma store_rate_wraps_when_counter_falls_witness :
  in_packets_rate
    (store (mkLocals 18 13 "a" 5 0 0 0) (mkTimeval 1 0)
           (mkNode "a" 10 0 0 0 FZero FZero FZero FZero true))
  = FDiv (if 10 <=? 5 then 5 - 10 else 5 - 10 + 2 ^ 64) (mkTimeval 1 0).
Proof.
  apply (store_rate_wraps_when_counter_falls
           (mkLocals 18 13 "a" 5 0 0 0) (mkTimeval 1 0)
           (mkNode "a" 10 0 0 0 FZero FZero FZero FZero true));
    cbn; lia.
Defined.

End TopMore.

(** * Properties of genauth *)

Module GenauthFacts.

Import Genauth.

Lemma to_int_small v : - 2 ^ 31 <= v < 2 ^ 31 -> to_int v = v.
Proof.
  intros H. unfold to_int. rewrite Z.mod_small; lia.
Qed.

Lemma lor_63 x : 0 <= x -> Z.lor x 63 = x - x mod 64 + 63.
Proof.
  intros Hx.
  pose proof (Z.add_lor_land x 63) as H.
  change 63 with (Z.ones 6) in H at 2.
  rewrite Z.land_ones in H by lia.
  change (2 ^ 6) with 64 in H. lia.
Qed.

(** X10: a number of bits from 1 to 2^31 - 64 is rounded up to the next
    multiple of 64. *)
Theorem round_bits_is_next_multiple_of_64 (bits : Z) :
  0 < bits <= 2 ^ 31 - 64 ->
  round_bits bits mod 64 = 0
  /\ bits <= round_bits bits < bits + 64.
Proof.
  intros Hb. unfold round_bits.
  rewrite (to_int_small (bits - 1)) by lia.
  rewrite lor_63 by lia.
  pose proof (Z.mod_pos_bound (bits - 1) 64 ltac:(lia)) as Hm.
  rewrite to_int_small by lia.
  split; [|lia].
  replace (bits - 1 - (bits - 1) mod 64 + 63 + 1)
    with (64 * ((bits - 1) / 64) + 64)
    by (pose proof (Z.div_mod (bits - 1) 64 ltac:(lia)); lia).
  replace (64 * ((bits - 1) / 64) + 64) with (((bits - 1) / 64 + 1) * 64) by lia.
  apply Z.mod_mul. lia.
Qed.

Lemma round_bits_is_next_multiple_of_64_witness :
  0 < 100 <= 2 ^ 31 - 64
  /\ round_bits 100 mod 64 = 0
  /\ 100 <= round_bits 100 < 100 + 64.
Proof.
  split; [lia|].
  apply (round_bits_is_next_multiple_of_64 100). lia.
Defined.

(** The loop takes the bytes of the stream in order; for every byte the
    stream lacks it complains and stores 255. *)
Lemma fill_spec n :
  forall fp,
    fill n fp
    = (map (fun c => c mod 256) (firstn n fp)
       ++ repeat 255 (n - List.length fp),
       List.concat (repeat [Stdout nl; Stderr ("File was empty!" +++ nl)]
                           (n - List.length fp)),
       skipn n fp).
Proof.
  induction n as [|n IH]; intros fp.
  - reflexivity.
  - destruct fp as [|c fp]; cbn [fill].
    + rewrite IH. cbn [List.length firstn skipn].
      rewrite firstn_nil, skipn_nil, !Nat.sub_0_r. reflexivity.
    + rewrite IH. reflexivity.
Qed.

(** X11: for an argument that reads as a number of bits from 1 to
    2^31 - 64, genauth prints the rounded count, then count/8 bytes as two
    hexadecimal digits each: the bytes of /dev/urandom in order, and ff for
    every byte that /dev/urandom does not deliver, with a complaint on
    stderr for each; its exit status is 0 either way. *)
Theorem main_prints_rounded_count_and_bytes
    (xmalloc_ok : Z -> bool) (fp : list Z) (prog arg : string) :
  let bits := round_bits (to_int (atol arg)) in
  let bytes := Z.to_nat (bits / 8) in
  0 < to_int (atol arg) <= 2 ^ 31 - 64 ->
  xmalloc_ok (bits / 8) = true ->
  main xmalloc_ok (Some fp) [prog; arg]
  = (Stderr ("Generating " +++ string_of_Z bits +++ " bits number")
     :: List.concat (repeat [Stdout nl; Stderr ("File was empty!" +++ nl)]
                            (bytes - List.length fp))
     ++ Stdout (string_of_Z bits +++ " ")
     :: map (fun b => Stdout (hex2 b))
            (map (fun c => c mod 256) (firstn bytes fp)
             ++ repeat 255 (bytes - List.length fp))
     ++ [Stdout nl; Stderr (": done." +++ nl)],
     0).
Proof.
  cbv zeta. intros Hbits Hmem.
  unfold main. cbn [List.length Z.of_nat Pos.of_succ_nat Pos.succ Z.eqb
                    Pos.eqb negb nth].
  destruct (Z.eqb_spec (to_int (atol arg)) 0) as [H0|_]; [lia|].
  rewrite Z.shiftr_div_pow2 by lia. change (2 ^ 3) with 8.
  rewrite Hmem, fill_spec. reflexivity.
Qed.

Lemma main_prints_rounded_count_and_bytes_witness :
  main (fun _ => true) (Some [1; 2; 255]) ["genauth"; "60"]%string
  = ([Stderr "Generating 64 bits number";
      Stdout nl; Stderr ("File was empty!" +++ nl);
      Stdout nl; Stderr ("File was empty!" +++ nl);
      Stdout nl; Stderr ("File was empty!" +++ nl);
      Stdout nl; Stderr ("File was empty!" +++ nl);
      Stdout nl; Stderr ("File was empty!" +++ nl);
      Stdout "64 ";
      Stdout "01"; Stdout "02"; Stdout "ff"; Stdout "ff";
      Stdout "ff"; Stdout "ff"; Stdout "ff"; Stdout "ff";
      Stdout nl; Stderr (": done." +++ nl)],
     0).
Proof.
  apply (main_prints_rounded_count_and_bytes
           (fun _ => true) [1; 2; 255] "genauth" "60").
  - vm_compute. split; [reflexivity | discriminate].
  - reflexivity.
Defined.

(** X12: genauth reads and prints nothing of /dev/urandom when its
    arguments are wrong: with a number of arguments other than one it
    prints its usage, with an argument whose value as an int is 0 (no
    number, 0, or a multiple of 2^32) it prints "Illegal number"; it exits
    with status 1 in both cases. *)
Theorem main_refuses_bad_arguments
    (xmalloc_ok : Z -> bool) (urandom : option (list Z))
    (argv : list string) :
  (List.length argv <> 2%nat ->
   main xmalloc_ok urandom argv
   = ([Stderr ("Usage: " +++ pr (hd_error argv) +++ " bits" +++ nl)], 1))
  /\ (forall prog arg,
         argv = [prog; arg] -> to_int (atol arg) = 0 ->
         main xmalloc_ok urandom argv
         = ([Stderr ("Illegal number: " +++ arg +++ nl)], 1)).
Proof.
  split.
  - intros Hlen. unfold main.
    destruct (Z.eqb_spec (Z.of_nat (List.length argv)) 2) as [H|_];
      [lia | reflexivity].
  - intros prog arg -> H0. unfold main.
    cbn [List.length Z.of_nat Pos.of_succ_nat Pos.succ Z.eqb Pos.eqb negb nth].
    rewrite H0. reflexivity.
Qed.

Lemma main_refuses_bad_arguments_witness :
  main (fun _ => true) (Some [1; 2; 3]) ["genauth"]%string
  = ([Stderr ("Usage: genauth bits" +++ nl)], 1)
  /\ main (fun _ => true) (Some [1; 2; 3]) ["genauth"; "4294967296"]%string
     = ([Stderr ("Illegal number: 4294967296" +++ nl)], 1).
Proof.
  split.
  - apply (proj1 (main_refuses_bad_arguments
                    (fun _ => true) (Some [1; 2; 3]) ["genauth"%string])).
    cbn. discriminate.
  - apply (proj2 (main_refuses_bad_arguments
                    (fun _ => true) (Some [1; 2; 3])
                    ["genauth"; "4294967296"]%string)
                 "genauth"%string "4294967296"%string eq_refl).
    vm_compute. reflexivity.
Defined.

End GenauthFacts.

(** * More properties of the daemon *)

Module TincdMore.

Import Tincd Scenario Startup TincdFacts.

Arguments string_of_Z : simpl never.

(** ** Signals *)

(** X13: [setup_signals] leaves no signal it can catch at its default: of
    the signals 1 to 31, SIGKILL and SIGSTOP apart, SIGPIPE is ignored and
    every other has a handler, which is [sighuh] for all but the nine the
    function names; SIGKILL, SIGSTOP and the numbers outside 1 to 31 keep
    what they had. *)
Theorem setup_signals_traps_every_signal (p : proc) (s : Z) :
  let t := sigtable (run setup_signals p) in
  (1 <= s <= 31 -> s <> SIGKILL -> s <> SIGSTOP ->
   (t s = SIG_IGN <-> s = SIGPIPE)
   /\ t s <> SIG_DFL
   /\ (~ In s [SIGTERM; SIGQUIT; SIGSEGV; SIGHUP; SIGPIPE; SIGINT;
               SIGUSR1; SIGUSR2; SIGCHLD] ->
       t s = Handler H_sighuh))
  /\ (s < 1 \/ 31 < s \/ s = SIGKILL \/ s = SIGSTOP -> t s = sigtable p s).
Proof.
  cbv zeta. destruct p. cbn -[In]. unfold SIGKILL, SIGSTOP.
  split.
  - intros Hs H9 H19. cbn [In].
    unfold SIGTERM, SIGQUIT, SIGSEGV, SIGHUP, SIGPIPE, SIGINT, SIGUSR1,
      SIGUSR2, SIGCHLD in *.
    split_tests; subst;
      repeat split; intros; try discriminate; try reflexivity; try lia;
      try tauto.
  - intros Hs.
    unfold SIGTERM, SIGQUIT, SIGSEGV, SIGHUP, SIGPIPE, SIGINT, SIGUSR1,
      SIGUSR2, SIGCHLD in *.
    split_tests; try reflexivity; lia.
Qed.

Lemma setup_signals_traps_every_signal_witness :
  let t := sigtable (run setup_signals (start no_files)) in
  (1 <= SIGALRM <= 31 -> SIGALRM <> SIGKILL -> SIGALRM <> SIGSTOP ->
   (t SIGALRM = SIG_IGN <-> SIGALRM = SIGPIPE)
   /\ t SIGALRM <> SIG_DFL
   /\ (~ In SIGALRM [SIGTERM; SIGQUIT; SIGSEGV; SIGHUP; SIGPIPE; SIGINT;
                     SIGUSR1; SIGUSR2; SIGCHLD] ->
       t SIGALRM = Handler H_sighuh))
  /\ (SIGALRM < 1 \/ 31 < SIGALRM \/ SIGALRM = SIGKILL \/ SIGALRM = SIGSTOP ->
      t SIGALRM = sigtable (start no_files) SIGALRM).
Proof.
  exact (setup_signals_traps_every_signal (start no_files) SIGALRM).
Defined.

(** X14: a signal that [setup_signals] leaves to [sighuh] does not end the
    daemon: its delivery adds one NOTICE to the log, with the signal's
    number and the last checkpoint, and changes nothing else. *)
Theorem unexpected_signal_is_logged_and_survived
    (e : env) (p : proc) (s : Z) :
  1 <= s <= 31 ->
  ~ In s [SIGKILL; SIGSTOP; SIGTERM; SIGQUIT; SIGSEGV; SIGHUP; SIGPIPE;
          SIGINT; SIGUSR1; SIGUSR2; SIGCHLD] ->
  let p1 := run setup_signals p in
  let p2 := handle e s p1 in
  news p1 p2
  = [Syslog LOG_NOTICE
       (match cp_file p1 with
        | Some f => "Got unexpected signal (" +++ string_of_Z s +++ ") after "
                    +++ f +++ " line " +++ string_of_Z (cp_line p1) +++ "."
        | None => "Got unexpected signal (" +++ string_of_Z s +++ ")."
        end)]
  /\ st p2 = st p1
  /\ pidfiles p2 = pidfiles p1
  /\ sigtable p2 = sigtable p1.
Proof.
  intros Hs Hnot. cbv zeta.
  pose proof (setup_signals_leaves_to_sighuh p s Hs Hnot) as Hb.
  unfold handle. rewrite Hb. cbn [handler_body]. unfold sighuh.
  generalize (run setup_signals p). intros q. destruct q.
  cbn [cp_file cp_line]. destruct cp_file0; straight; finish.
Qed.

Lemma unexpected_signal_is_logged_and_survived_witness :
  let p1 := run setup_signals (start no_files) in
  let p2 := handle e0 SIGALRM p1 in
  news p1 p2
  = [Syslog LOG_NOTICE
       (match cp_file p1 with
        | Some f => "Got unexpected signal (" +++ string_of_Z SIGALRM
                    +++ ") after " +++ f +++ " line "
                    +++ string_of_Z (cp_line p1) +++ "."
        | None => "Got unexpected signal (" +++ string_of_Z SIGALRM +++ ")."
        end)]
  /\ st p2 = st p1
  /\ pidfiles p2 = pidfiles p1
  /\ sigtable p2 = sigtable p1.
Proof.
  apply (unexpected_signal_is_logged_and_survived e0 (start no_files) SIGALRM).
  - vm_compute. split; discriminate.
  - vm_compute. intuition discriminate.
Defined.

(** ** Options *)

Lemma parse_option_outcome e r a p :
  let x := parse_option e r a p in
  pidfiles (snd x) = pidfiles p /\ sigtable (snd x) = sigtable p
  /\ ((fst x = Val tt /\ st (snd x) = st p)
      \/ (fst x = Halt /\ st (snd x) = Exited 1)).
Proof.
  cbv zeta. unfold parse_option.
  repeat match goal with
         | |- context [if ?x =? ?y then _ else _] => destruct (x =? y)
         end;
    unfold usage, add_config_val, bind, modify, emit, modify, ret, get, exit,
      printf, fprintf_stderr, emit, modify;
    try destruct (add_config_val_ok e a);
    destruct p; cbn; auto.
Qed.

Lemma getopt_long_val o p :
  exists r a p',
    getopt_long o p = (Val (r, a), p')
    /\ pidfiles p' = pidfiles p /\ sigtable p' = sigtable p /\ st p' = st p.
Proof.
  destruct (getopt_long_frame o p) as (r & a & p' & H & (H1 & H2 & H3) & _).
  exists r, a, p'. auto.
Qed.

(** X15: parsing the options either returns, with the process running as it
    was, or ends the process with status 1; either way it touches no PID
    file and binds no signal. *)
Theorem parse_options_returns_or_exits_with_1
    (e : env) (opts : list getopt_ret) (p : proc) :
  let x := parse_options e opts p in
  pidfiles (snd x) = pidfiles p
  /\ sigtable (snd x) = sigtable p
  /\ ((fst x = Val tt /\ st (snd x) = st p)
      \/ (fst x = Halt /\ st (snd x) = Exited 1)).
Proof.
  cbv zeta. revert p.
  induction opts as [|o opts IH]; intros p.
  - cbn. auto.
  - cbn [parse_options]. unfold bind.
    destruct (getopt_long_val o p) as (r & a & q & Hg & Hf & Ht & Hs).
    rewrite Hg. cbn [fst snd].
    pose proof (parse_option_outcome e r a q) as Ho. cbv zeta in Ho.
    destruct (parse_option e r a q) as [[[]|] q'] eqn:Hpo; cbn [fst snd] in *.
    + destruct Ho as (Hf' & Ht' & [[_ Hs']|[Hx _]]); [|discriminate Hx].
      destruct (IH q') as (Hf'' & Ht'' & Hcase).
      split; [congruence|]. split; [congruence|].
      destruct Hcase as [[Hv Hst]|[Hh Hst]]; [left|right];
        split; congruence.
    + destruct Ho as (Hf' & Ht' & [[Hx _]|[_ Hs']]); [discriminate Hx|].
      split; [congruence|]. split; [congruence|]. right. auto.
Qed.

Lemma set_debug_lvl_twice a b p :
  set_debug_lvl a (set_debug_lvl b p) = set_debug_lvl a p.
Proof. now destruct p. Qed.

(** X16: the debug level is raised by one for every -d on the command line,
    as long as the count stays an int. *)
Theorem debug_level_counts_d_options (e : env) (n : nat) (p : proc) :
  debug_lvl p + Z.of_nat n <= 2147483647 ->
  parse_options e (repeat (Short "d" "") n) p
  = (Val tt, set_debug_lvl (debug_lvl p + Z.of_nat n) p).
Proof.
  intros _. revert p. induction n as [|n IH]; intros p.
  - cbn. rewrite Z.add_0_r. now destruct p.
  - cbn [repeat].
    change (parse_options e (Short "d" "" :: repeat (Short "d" "") n) p)
      with (parse_options e (repeat (Short "d" "") n)
              (set_debug_lvl (debug_lvl p + 1) p)).
    rewrite IH, set_debug_lvl_twice. do 2 f_equal.
    replace (debug_lvl (set_debug_lvl (debug_lvl p + 1) p))
      with (debug_lvl p + 1) by now destruct p.
    lia.
Qed.

Lemma debug_level_counts_d_options_witness :
  parse_options e0 (repeat (Short "d" "") 3) (start no_files)
  = (Val tt,
     set_debug_lvl (debug_lvl (start no_files) + Z.of_nat 3)
                   (start no_files)).
Proof.
  apply (debug_level_counts_d_options e0 3 (start no_files)).
  vm_compute. discriminate.
Defined.

Lemma parse_options_app e a :
  forall b p,
    parse_options e (a ++ b) p
    = bind (parse_options e a) (fun _ => parse_options e b) p.
Proof.
  induction a as [|o a IH]; intros b p.
  - reflexivity.
  - cbn [app parse_options]. unfold bind.
    destruct (getopt_long o p) as [[ra|] q]; [|reflexivity].
    destruct (parse_option e (fst ra) (snd ra) q) as [[u|] q'];
      [|reflexivity].
    rewrite IH. reflexivity.
Qed.

(** X17: an option getopt_long does not know ends the parsing: the hint
    "Try `<program> --help' for more information." goes to stderr, the
    process exits with status 1, and the options behind it are not looked
    at. *)
Theorem unknown_option_ends_the_parsing
    (e : env) (before after : list getopt_ret) (optarg : string)
    (p p1 : proc) :
  parse_options e before p = (Val tt, p1) ->
  let x := parse_options e (before ++ Short "?" optarg :: after) p in
  fst x = Halt
  /\ st (snd x) = Exited 1
  /\ news p1 (snd x)
     = [Stderr ("Try `" +++ pr (program_name p1)
                +++ " --help' for more information." +++ nl)]
  /\ netname (snd x) = netname p1
  /\ kill_tincd (snd x) = kill_tincd p1.
Proof.
  intros Hb. cbv zeta. rewrite parse_options_app.
  rewrite (bind_val _ _ _ _ _ Hb).
  cbn beta.
  change (parse_options e (Short "?" optarg :: after) p1)
    with ((@usage unit 1 ;; parse_options e after) p1).
  unfold bind, usage, bind, get, fprintf_stderr, emit, modify, exit, ret.
  destruct p1. straight. finish.
Qed.

Lemma unknown_option_ends_the_parsing_witness :
  let p := set_program_name (Some "tincd"%string) (start no_files) in
  let p1 := run (parse_options e0 [Short "n" "v1"]) p in
  let x := parse_options e0 ([Short "n" "v1"] ++ Short "?" "" :: [Short "k" ""])
                         p in
  fst x = Halt
  /\ st (snd x) = Exited 1
  /\ news p1 (snd x)
     = [Stderr ("Try `" +++ pr (program_name p1)
                +++ " --help' for more information." +++ nl)]
  /\ netname (snd x) = netname p1
  /\ kill_tincd (snd x) = kill_tincd p1.
Proof.
  cbv zeta.
  apply (unknown_option_ends_the_parsing
           e0 [Short "n" "v1"] [Short "k" ""] ""
           (set_program_name (Some "tincd"%string) (start no_files))).
  vm_compute. reflexivity.
Defined.

(** X18: the long option --timeout is dropped: getopt_long answers it with
    'p', which the switch does not know, so the process is as before it;
    -t gives its argument to add_config_val. *)
Theorem long_timeout_option_is_dropped
    (e : env) (optarg : string) (p : proc) :
  parse_options e [Long 2 optarg] p = (Val tt, p)
  /\ In (AddConfigVal optarg)
        (trace (snd (parse_options e [Short "t" optarg] p))).
Proof.
  split; [reflexivity|].
  cbn [parse_options]. unfold bind at 1. cbn [getopt_long ret fst snd].
  unfold bind at 1.
  change (parse_option e (chr "t") optarg p)
    with ((ok <- add_config_val e optarg ;;
           if ok then ret tt
           else printf ("Invalid timeout value `" +++ optarg +++ "'." +++ nl) ;;
                usage 1) p).
  unfold add_config_val, bind, emit, modify, ret, printf, emit, modify, usage,
    bind, get, fprintf_stderr, emit, modify, exit.
  destruct (add_config_val_ok e optarg), p; cbn;
    rewrite ?in_app_iff; cbn; auto 10.
Qed.

(** ** Names *)

(** X19: [make_names] twice is [make_names] once: the names it made stand,
    and so does a configuration file named with -c. *)
Theorem make_names_is_idempotent (e : env) (p : proc) :
  run (make_names e) (run (make_names e) p) = run (make_names e) p
  /\ (forall f, configfilename p = Some f ->
                configfilename (run (make_names e) p) = Some f).
Proof.
  destruct p. destruct netname0, configfilename0; cbn;
    (split; [reflexivity | intros f Hf; first [exact Hf | discriminate Hf]]).
Qed.

(** ** The PID file as a lock *)

(** X20: [write_pidfile] always returns. It returns 0 only with the pid of
    this process in the PID file; when it returns anything else the PID
    files are as they were; and a PID file that names a live process makes
    it return 1. It binds no signal and ends nothing. *)
Theorem write_pidfile_respects_the_lock (e : env) (p : proc) (path : string) :
  pidfilename p = Some path ->
  getpid e <> 0 ->
  exists r,
    write_pidfile e p = (Val r, run (write_pidfile e) p)
    /\ (r = 0 \/ r = 1)
    /\ (r = 0 -> pidfiles (run (write_pidfile e) p) path = Some (getpid e))
    /\ (r <> 0 -> pidfiles (run (write_pidfile e) p) = pidfiles p)
    /\ (forall pid, pidfiles p path = Some pid -> pid <> 0 ->
                    kill_errno e pid 0 <> ESRCH -> r = 1)
    /\ sigtable (run (write_pidfile e) p) = sigtable p
    /\ st (run (write_pidfile e) p) = st p.
Proof.
  intros Hname Hpid. destruct p. cbn [pidfilename] in Hname. subst.
  unfold run, write_pidfile, bind, get, check_pid, read_pid, bind, get, ret,
    file_pid, kill, bind, emit, modify, ret, write_pid.
  cbn [pidfilename pidfiles netname fst snd].
  destruct (pidfiles0 path) as [pid|] eqn:Hfile.
  - destruct (Z.eqb_spec pid 0) as [->|Hnz].
    + cbn [Z.eqb negb]. destruct (write_pid_ok e).
      * unfold bind, emit, modify, ret. cbn.
        destruct (Z.eqb_spec (getpid e) 0) as [|_]; [contradiction|].
        exists 0. cbn. rewrite String.eqb_refl.
        repeat split; auto; try congruence.
      * cbn. exists 1. repeat split; auto; try discriminate.
    + cbn [fst snd].
      destruct (negb ((if kill_errno e pid 0 =? 0 then 0 else -1) =? 0)
                && (kill_errno e pid 0 =? ESRCH)) eqn:Hgone.
      * cbn [Z.eqb negb]. destruct (write_pid_ok e).
        -- unfold bind, emit, modify, ret. cbn.
           destruct (Z.eqb_spec (getpid e) 0) as [|_]; [contradiction|].
           exists 0. cbn. rewrite String.eqb_refl.
           repeat split; auto; try congruence.
           intros pid' Hp' _ Hlive. exfalso.
           assert (pid' = pid) by congruence. subst pid'.
           apply andb_prop in Hgone. destruct Hgone as [_ Hg].
           apply Z.eqb_eq in Hg. contradiction.
        -- cbn. exists 1. repeat split; auto; try discriminate.
      * destruct (Z.eqb_spec pid 0) as [|_]; [contradiction|].
        cbn [negb]. unfold fprintf_stderr, emit, modify.
        destruct netname0; cbn; exists 1;
          repeat split; auto; try discriminate.
  - cbn [Z.eqb negb]. destruct (write_pid_ok e).
    + unfold bind, emit, modify, ret. cbn.
      destruct (Z.eqb_spec (getpid e) 0) as [|_]; [contradiction|].
      exists 0. cbn. rewrite String.eqb_refl.
      repeat split; auto; try congruence.
    + cbn. exists 1. repeat split; auto; try discriminate.
Qed.

Lemma write_pidfile_respects_the_lock_witness :
  exists r,
    write_pidfile e0 booted = (Val r, run (write_pidfile e0) booted)
    /\ (r = 0 \/ r = 1)
    /\ (r = 0 -> pidfiles (run (write_pidfile e0) booted)
                          "/var/run/tincd.v1.pid" = Some (getpid e0))
    /\ (r <> 0 -> pidfiles (run (write_pidfile e0) booted) = pidfiles booted)
    /\ (forall pid, pidfiles booted "/var/run/tincd.v1.pid" = Some pid ->
                    pid <> 0 -> kill_errno e0 pid 0 <> ESRCH -> r = 1)
    /\ sigtable (run (write_pidfile e0) booted) = sigtable booted
    /\ st (run (write_pidfile e0) booted) = st booted.
Proof.
  apply (write_pidfile_respects_the_lock e0 booted "/var/run/tincd.v1.pid").
  - vm_compute. reflexivity.
  - vm_compute. discriminate.
Defined.

(** ** main, from the names on *)

Lemma set_g_argv_fields argv p :
  netname (set_g_argv argv p) = netname p
  /\ configfilename (set_g_argv argv p) = configfilename p
  /\ kill_tincd (set_g_argv argv p) = kill_tincd p
  /\ do_detach (set_g_argv argv p) = do_detach p
  /\ pidfiles (set_g_argv argv p) = pidfiles p
  /\ sigtable (set_g_argv argv p) = sigtable p
  /\ trace (set_g_argv argv p) = trace p
  /\ st (set_g_argv argv p) = st p.
Proof. destruct p. cbn. auto 10. Qed.

(** [main_root] up to the result of [read_config_file]. *)
Lemma main_root_at_config e argv p :
  kill_tincd p = 0 ->
  let q := run (make_names e) (set_g_argv argv p) in
  main_root e argv p
  = ((if negb (read_config_file_ret e =? 0) then ret 1
      else
        setup_signals ;;
        r <- detach e ;;
        when (negb (r =? 0)) (exit 0) ;;
        r <- security_init e ;;
        if negb (r =? 0) then ret 1
        else
          r <- setup_network_connections e ;;
          when (negb (r =? 0)) (call e (cleanup_and_exit 1)) ;;
          main_loop ;;
          call e (cleanup_and_exit 1) ;;
          ret 1)
       (run (read_config_file e (configfilename q)) q)).
Proof.
  intros Hk. cbv zeta.
  unfold main_root. rewrite bind_modify.
  rewrite (bind_val _ _ _ _ _ (make_names_val e _)), bind_get.
  destruct (make_names_fields e (set_g_argv argv p)) as (_ & _ & Hk' & _).
  destruct (set_g_argv_fields argv p) as (_ & _ & Hk'' & _).
  rewrite Hk', Hk'', Hk. cbn [Z.eqb negb when].
  set (q := run (make_names e) (set_g_argv argv p)).
  rewrite (bind_val (ret tt) _ q tt q eq_refl).
  rewrite (bind_val (read_config_file e (configfilename q)) _ q _ _ eq_refl).
  reflexivity.
Qed.

(** [main_root] up to its call of [detach]. *)
Lemma main_root_at_detach e argv p :
  kill_tincd p = 0 -> read_config_file_ret e = 0 ->
  main_root e argv p
  = (r <- detach e ;;
     when (negb (r =? 0)) (exit 0) ;;
     r <- security_init e ;;
     if negb (r =? 0) then ret 1
     else
       r <- setup_network_connections e ;;
       when (negb (r =? 0)) (call e (cleanup_and_exit 1)) ;;
       main_loop ;;
       call e (cleanup_and_exit 1) ;;
       ret 1) (before_detach e argv p).
Proof.
  intros Hk Hconf. rewrite (main_root_at_config e argv p Hk). cbv zeta.
  rewrite Hconf. cbn [Z.eqb negb].
  rewrite (bind_val _ _ _ _ _ (setup_signals_val _)).
  unfold before_detach. cbv beta zeta. reflexivity.
Qed.

Lemma before_detach_fields e argv p :
  let q := before_detach e argv p in
  pidfilename q = Some (pid_path (netname p))
  /\ netname q = netname p
  /\ do_detach q = do_detach p
  /\ pidfiles q = pidfiles p
  /\ trace q
     = trace p ++ [ReadConfigFile (configfilename (run (make_names e) p))]
  /\ st q = st p.
Proof.
  destruct p. destruct netname0, configfilename0; cbn; auto 10.
Qed.

(** X21: a configuration file that cannot be read ends the daemon with status
    1, and nothing but the reading has happened: no signal is bound, no PID
    file touched, no process forked. *)
Theorem unreadable_configuration_ends_main_with_1
    (e : env) (argv : list string) (p : proc) :
  kill_tincd p = 0 ->
  read_config_file_ret e <> 0 ->
  let q := finish (main_root e argv p) in
  st q = Exited 1
  /\ news p q = [ReadConfigFile (configfilename (run (make_names e) p))]
  /\ sigtable q = sigtable p
  /\ pidfiles q = pidfiles p.
Proof.
  intros Hk Hconf. cbv zeta.
  rewrite (main_root_at_config e argv p Hk). cbv zeta.
  destruct (Z.eqb_spec (read_config_file_ret e) 0) as [|_]; [contradiction|].
  cbn [negb]. destruct p. destruct netname0, configfilename0; straight; finish.
Qed.

Lemma unreadable_configuration_ends_main_with_1_witness :
  let q := finish (main_root e_noconf ["tincd"]%string (start no_files)) in
  st q = Exited 1
  /\ news (start no_files) q
     = [ReadConfigFile
          (configfilename (run (make_names e_noconf) (start no_files)))]
  /\ sigtable q = sigtable (start no_files)
  /\ pidfiles q = pidfiles (start no_files).
Proof.
  apply (unreadable_configuration_ends_main_with_1
           e_noconf ["tincd"]%string (start no_files)).
  - vm_compute. reflexivity.
  - vm_compute. discriminate.
Defined.

Lemma detach_without_fork e q :
  do_detach q <> 0 -> fork e < 0 ->
  detach e q
  = (Val (-1),
     set_trace (trace q ++ [Fork; Perror "fork"]) (set_ppid (getpid e) q)).
Proof.
  intros Hd Hfork. unfold detach. rewrite bind_get.
  destruct (Z.eqb_spec (do_detach q) 0) as [|_]; [contradiction|].
  cbn [negb]. rewrite bind_modify. unfold emit at 1. rewrite bind_modify.
  apply Z.ltb_lt in Hfork. rewrite Hfork.
  destruct q. cbn. rewrite <- app_assoc. reflexivity.
Qed.

(** X22: when [fork] fails the daemon says so with perror and exits with
    status 0; no PID file is written and the key material never read. *)
Theorem failed_fork_ends_main_with_0
    (e : env) (argv : list string) (p : proc) :
  kill_tincd p = 0 ->
  read_config_file_ret e = 0 ->
  do_detach p <> 0 ->
  fork e < 0 ->
  let q := finish (main_root e argv p) in
  st q = Exited 0
  /\ news p q = [ReadConfigFile (configfilename (run (make_names e) p));
                 Fork; Perror "fork"]
  /\ pidfiles q = pidfiles p.
Proof.
  intros Hk Hconf Hd Hfork. cbv zeta.
  rewrite (main_root_at_detach e argv p Hk Hconf).
  destruct (before_detach_fields e argv p)
    as (_ & _ & Hd' & Hfiles & Htrace & _).
  set (q := before_detach e argv p) in *. clearbody q.
  rewrite <- Hd' in Hd.
  rewrite (bind_val _ _ _ _ _ (detach_without_fork e q Hd Hfork)).
  cbn [Z.eqb negb when]. unfold bind at 1, exit at 1, finish.
  unfold news. destruct q. cbn in *. subst.
  rewrite <- !app_assoc. cbn [app]. rewrite skipn_length_app. finish.
Qed.

Lemma failed_fork_ends_main_with_0_witness :
  let q := finish (main_root e_nofork ["tincd"]%string (start no_files)) in
  st q = Exited 0
  /\ news (start no_files) q
     = [ReadConfigFile
          (configfilename (run (make_names e_nofork) (start no_files)));
        Fork; Perror "fork"]
  /\ pidfiles q = pidfiles (start no_files).
Proof.
  apply (failed_fork_ends_main_with_0
           e_nofork ["tincd"]%string (start no_files)).
  - vm_compute. reflexivity.
  - vm_compute. reflexivity.
  - vm_compute. discriminate.
  - vm_compute. reflexivity.
Defined.

(** [write_pidfile] on a PID file that is not there. *)
Lemma write_pidfile_free e q path :
  pidfilename q = Some path -> pidfiles q path = None ->
  write_pid_ok e = true -> getpid e <> 0 ->
  write_pidfile e q
  = (Val 0,
     set_pidfiles (fun x => if String.eqb x path then Some (getpid e)
                            else pidfiles q x)
       (set_trace (trace q ++ [WritePid (Some path) (getpid e)]) q)).
Proof.
  intros Hname Hfile Hok Hpid. destruct q. cbn [pidfilename pidfiles] in *.
  subst.
  unfold write_pidfile, bind, get, check_pid, read_pid, bind, get, ret,
    file_pid, write_pid.
  cbn [pidfilename pidfiles netname fst snd]. rewrite Hfile, Hok.
  cbn [Z.eqb negb]. unfold bind, emit, modify, ret. cbn.
  destruct (Z.eqb_spec (getpid e) 0) as [|_]; [contradiction|]. reflexivity.
Qed.

(** [detach] in the daemon that stays in the foreground. *)
Lemma detach_foreground e q path :
  do_detach q = 0 ->
  pidfilename q = Some path -> pidfiles q path = None ->
  write_pid_ok e = true -> getpid e <> 0 ->
  detach e q
  = (Val 0,
     set_trace
       (trace q
        ++ [WritePid (Some path) (getpid e); Chdir "/"; Openlog (identname q);
            Syslog LOG_NOTICE
              (if debug_lvl q >? 1 then
                 "tincd " +++ VERSION e +++ " (" +++ DATE e +++ " " +++ TIME e
                 +++ ") starting, debug level " +++ string_of_Z (debug_lvl q)
                 +++ "."
               else
                 "tincd " +++ VERSION e +++ " starting, debug level "
                 +++ string_of_Z (debug_lvl q) +++ ".");
            SetXallocFailFunc])
       (set_pidfiles (fun x => if String.eqb x path then Some (getpid e)
                               else pidfiles q x) q)).
Proof.
  intros Hd Hname Hfile Hok Hpid.
  unfold detach. rewrite bind_get, Hd. cbn [Z.eqb negb].
  unfold detach_child.
  rewrite (bind_val _ _ _ _ _ (write_pidfile_free e q _ Hname Hfile Hok Hpid)).
  cbn [Z.eqb negb]. rewrite bind_get.
  replace (do_detach _) with 0 by (destruct q; symmetry; exact Hd).
  cbn [Z.eqb negb].
  unfold detach_tail, syslog, bind, get, emit, modify, ret.
  destruct q. cbn. destruct (debug_lvl0 >? 1); cbn;
    rewrite <- !app_assoc; reflexivity.
Qed.

(** X23: the daemon that does not detach (-D) and cannot read its key
    material: it has not forked, has written its pid to the PID file and
    opened the log, and [main] returns 1 right behind [security_init]; the
    PID file stays behind, the network is never set up and no signal is
    sent. *)
Theorem foreground_daemon_without_keys_ends_with_1
    (e : env) (argv : list string) (p : proc) :
  kill_tincd p = 0 ->
  do_detach p = 0 ->
  read_config_file_ret e = 0 ->
  pidfiles p (pid_path (netname p)) = None ->
  write_pid_ok e = true ->
  getpid e <> 0 ->
  security_init_ret e <> 0 ->
  let q := finish (main_root e argv p) in
  st q = Exited 1
  /\ (exists msg,
        news p q
        = [ReadConfigFile (configfilename (run (make_names e) p));
           WritePid (Some (pid_path (netname p))) (getpid e);
           Chdir "/";
           Openlog (identname (run (make_names e) p));
           Syslog LOG_NOTICE msg;
           SetXallocFailFunc;
           SecurityInit])
  /\ pidfiles q (pid_path (netname p)) = Some (getpid e).
Proof.
  intros Hk Hd Hconf Hfile Hok Hpid Hsec. cbv zeta.
  rewrite (main_root_at_detach e argv p Hk Hconf).
  destruct (before_detach_fields e argv p)
    as (Hname & _ & Hd' & Hfiles & Htrace & _).
  assert (Hident : identname (before_detach e argv p)
                   = identname (run (make_names e) p))
    by (destruct p; destruct netname0, configfilename0; reflexivity).
  set (q := before_detach e argv p) in *. clearbody q.
  rewrite <- Hfiles in Hfile. rewrite Hd in Hd'.
  rewrite (bind_val _ _ _ _ _
             (detach_foreground e q _ Hd' Hname Hfile Hok Hpid)).
  cbn [Z.eqb negb when].
  set (msg := if debug_lvl q >? 1 then _ else _). clearbody msg.
  set (conf := configfilename (run (make_names e) p)) in *. clearbody conf.
  set (path := pid_path (netname p)) in *. clearbody path.
  unfold security_init, bind, emit, modify, ret.
  destruct (Z.eqb_spec (security_init_ret e) 0) as [|_]; [contradiction|].
  destruct q. cbn [trace identname pidfiles] in *. subst.
  cbn. rewrite String.eqb_refl.
  split; [reflexivity|]. split; [|reflexivity].
  exists msg. unfold news. cbn [trace set_st set_trace].
  rewrite <- !app_assoc. cbn [app]. now rewrite skipn_length_app.
Qed.

Lemma foreground_daemon_without_keys_ends_with_1_witness :
  let q := finish (main_root e_nokeys ["tincd"; "-n"; "v1"; "-D"]%string
                             foreground) in
  st q = Exited 1
  /\ (exists msg,
        news foreground q
        = [ReadConfigFile
             (configfilename (run (make_names e_nokeys) foreground));
           WritePid (Some (pid_path (netname foreground))) (getpid e_nokeys);
           Chdir "/";
           Openlog (identname (run (make_names e_nokeys) foreground));
           Syslog LOG_NOTICE msg;
           SetXallocFailFunc;
           SecurityInit])
  /\ pidfiles q (pid_path (netname foreground)) = Some (getpid e_nokeys).
Proof.
  apply (foreground_daemon_without_keys_ends_with_1
           e_nokeys ["tincd"; "-n"; "v1"; "-D"]%string foreground).
  - vm_compute. reflexivity.
  - vm_compute. reflexivity.
  - vm_compute. reflexivity.
  - vm_compute. reflexivity.
  - vm_compute. reflexivity.
  - vm_compute. discriminate.
  - vm_compute. discriminate.
Defined.

(** [detach] in the child when the terminal or the session fails it. *)
Lemma detach_child_fails e q path :
  do_detach q <> 0 -> fork e = 0 ->
  pidfilename q = Some path -> pidfiles q path = None ->
  write_pid_ok e = true -> getpid e <> 0 ->
  (0 <= tty_fd e /\ ioctl_ret e <> 0)
  \/ ((tty_fd e < 0 \/ ioctl_ret e = 0) /\ setsid_ret e < 0) ->
  exists evs,
    detach e q
    = (Val (-1),
       set_trace (trace q ++ evs)
         (set_pidfiles (fun x => if String.eqb x path then Some (getpid e)
                                 else pidfiles q x)
            (set_ppid (getpid e) q)))
    /\ In (WritePid (Some path) (getpid e)) evs
    /\ filter is_unlink evs = []
    /\ ~ In SecurityInit evs
    /\ (forall pid sig, ~ In (Kill pid sig) evs).
Proof.
  intros Hd Hfork Hname Hfile Hok Hpid Hfail.
  unfold detach. rewrite bind_get.
  destruct (Z.eqb_spec (do_detach q) 0) as [|_]; [contradiction|].
  cbn [negb]. rewrite bind_modify. unfold emit at 1. rewrite bind_modify.
  rewrite Hfork. cbn [Z.ltb Z.eqb Z.compare negb].
  unfold detach_child.
  set (q1 := set_trace _ _).
  assert (Hq1 : pidfilename q1 = Some path /\ pidfiles q1 path = None
                /\ do_detach q1 = do_detach q).
  { subst q1. destruct q. cbn in *. auto. }
  destruct Hq1 as (Hname1 & Hfile1 & Hd1).
  rewrite (bind_val _ _ _ _ _
             (write_pidfile_free e q1 _ Hname1 Hfile1 Hok Hpid)).
  cbn [Z.eqb negb]. rewrite bind_get.
  replace (do_detach _) with (do_detach q)
    by (subst q1; destruct q; reflexivity).
  destruct (Z.eqb_spec (do_detach q) 0) as [|_]; [contradiction|].
  cbn [negb]. subst q1.
  unfold detach_tty, detach_session, perror, bind, emit, modify, ret.
  destruct Hfail as [[Htty Hio]|[Hnotty Hsid]].
  - apply Z.geb_le in Htty. rewrite Htty.
    destruct (Z.eqb_spec (ioctl_ret e) 0) as [|_]; [contradiction|].
    exists [Fork; WritePid (Some path) (getpid e); OpenTty; IoctlNotty;
            Perror "ioctl"].
    destruct q. cbn. rewrite <- !app_assoc.
    split; [reflexivity|]. cbn [In]. intuition discriminate.
  - apply Z.ltb_lt in Hsid.
    destruct (tty_fd e >=? 0) eqn:Htty.
    + destruct Hnotty as [Hlt|Hio];
        [apply Z.geb_le in Htty; lia|].
      rewrite Hio. cbn [Z.eqb negb]. rewrite Hsid.
      exists [Fork; WritePid (Some path) (getpid e); OpenTty; IoctlNotty;
              CloseTty; Setsid].
      destruct q. cbn. rewrite <- !app_assoc.
      split; [reflexivity|]. cbn [In]. intuition discriminate.
    + rewrite Hsid.
      exists [Fork; WritePid (Some path) (getpid e); OpenTty; Setsid].
      destruct q. cbn. rewrite <- !app_assoc.
      split; [reflexivity|]. cbn [In]. intuition discriminate.
Qed.

(** X24: when the child of the fork has written the PID file and then cannot
    give up its terminal (ioctl) or start a session (setsid), the daemon
    exits with status 0 and the PID file stays behind; the parent is sent
    no signal and the key material is never read. *)
Theorem failed_detach_leaves_the_pid_file
    (e : env) (argv : list string) (p : proc) :
  kill_tincd p = 0 ->
  read_config_file_ret e = 0 ->
  do_detach p <> 0 ->
  fork e = 0 ->
  pidfiles p (pid_path (netname p)) = None ->
  write_pid_ok e = true ->
  getpid e <> 0 ->
  (0 <= tty_fd e /\ ioctl_ret e <> 0)
  \/ ((tty_fd e < 0 \/ ioctl_ret e = 0) /\ setsid_ret e < 0) ->
  let q := finish (main_root e argv p) in
  st q = Exited 0
  /\ pidfiles q (pid_path (netname p)) = Some (getpid e)
  /\ filter is_unlink (news p q) = []
  /\ ~ In SecurityInit (news p q)
  /\ (forall pid sig, ~ In (Kill pid sig) (news p q)).
Proof.
  intros Hk Hconf Hd Hfork Hfile Hok Hpid Hfail. cbv zeta.
  rewrite (main_root_at_detach e argv p Hk Hconf).
  destruct (before_detach_fields e argv p)
    as (Hname & _ & Hd' & Hfiles & Htrace & _).
  set (q := before_detach e argv p) in *. clearbody q.
  rewrite <- Hfiles in Hfile. rewrite <- Hd' in Hd.
  destruct (detach_child_fails e q _ Hd Hfork Hname Hfile Hok Hpid Hfail)
    as (evs & Hdet & Hw & Hu & Hs & Hkill).
  rewrite (bind_val _ _ _ _ _ Hdet).
  cbn [Z.eqb negb when].
  set (q' := set_trace (trace q ++ evs) _).
  rewrite (bind_halt (exit 0) _ q' (set_st (Exited 0) q') eq_refl).
  cbn [finish].
  set (conf := configfilename (run (make_names e) p)) in *. clearbody conf.
  assert (Hnews : news p (set_st (Exited 0) q') = ReadConfigFile conf :: evs).
  { rewrite news_set_st. apply news_app.
    replace (trace q') with (trace q ++ evs)
      by (subst q'; destruct q; reflexivity).
    rewrite Htrace, <- app_assoc. reflexivity. }
  rewrite Hnews.
  split; [subst q'; destruct q; reflexivity|].
  split; [subst q'; destruct q; cbn; rewrite String.eqb_refl; reflexivity|].
  split; [cbn; exact Hu|].
  split.
  - cbn [In]. intros [Hx|Hx]; [discriminate Hx|exact (Hs Hx)].
  - intros pid sig. cbn [In]. intros [Hx|Hx];
      [discriminate Hx|exact (Hkill pid sig Hx)].
Qed.

Lemma failed_detach_leaves_the_pid_file_witness :
  let q := finish (main_root e_noioctl ["tincd"]%string (start no_files)) in
  st q = Exited 0
  /\ pidfiles q (pid_path (netname (start no_files)))
     = Some (getpid e_noioctl)
  /\ filter is_unlink (news (start no_files) q) = []
  /\ ~ In SecurityInit (news (start no_files) q)
  /\ (forall pid sig, ~ In (Kill pid sig) (news (start no_files) q)).
Proof.
  apply (failed_detach_leaves_the_pid_file
           e_noioctl ["tincd"]%string (start no_files)).
  - vm_compute. reflexivity.
  - vm_compute. reflexivity.
  - vm_compute. discriminate.
  - vm_compute. reflexivity.
  - vm_compute. reflexivity.
  - vm_compute. reflexivity.
  - vm_compute. discriminate.
  - left. split; vm_compute; discriminate.
Defined.

End TincdMore.

(** * Signals that arrive while the daemon runs *)

Module SignalFacts.

Import Tincd Scenario Startup TincdFacts TincdMore.

Arguments string_of_Z : simpl never.

(** ** What one call does to the signal table and to the count of execvp *)


Lemma signal_valid_SIGSEGV : signal_valid SIGSEGV = true.
Proof. reflexivity. Qed.



(** ** The guard is kept *)

Lemma guarded_at_ext p p' k sf :
  sigtable p' = sigtable p -> trace p' = trace p ->
  guarded_at p k sf -> guarded_at p' k sf.
Proof.
  unfold guarded_at, attempts_at. intros -> ->. auto.
Qed.

Lemma attempts_at_ext p p' k :
  trace p' = trace p -> attempts_at p' k = attempts_at p k.
Proof. unfold attempts_at. now intros ->. Qed.








Lemma sigsegv_handler_body sig p :
  forallb (fun a => negb (rebinds_first_strike a)) (sigsegv_handler sig p) = true
  /\ List.length (filter is_aexecvp (sigsegv_handler sig p)) = 1%nat
  /\ existsb installs_second (sigsegv_handler sig p) = true.
Proof. repeat split. Qed.




(** ** The machine keeps the guard *)













(** ** From [setup_signals] to the main loop *)

Lemma kept_refl q : kept q q.
Proof. unfold kept. auto 10. Qed.


Lemma count_execvp_quiet l r :
  filter is_execvp r = [] -> count_execvp (l ++ r) = count_execvp l.
Proof.
  intros H. rewrite count_execvp_app. unfold count_execvp at 2.
  rewrite H. cbn. lia.
Qed.








Lemma before_detach_image e argv p :
  sigtable (before_detach e argv p) = sigtable (run setup_signals p)
  /\ g_argv (before_detach e argv p) = argv
  /\ count_execvp (trace (before_detach e argv p)) = count_execvp (trace p).
Proof.
  destruct p. destruct netname0, configfilename0; cbn;
    rewrite count_execvp_quiet by reflexivity; auto.
Qed.







(** ** The second strike *)




(** ** The supervisor parent *)

(** In the parent, [detach] is the code behind the fork, and it ends the
    process. *)
Lemma detach_in_parent e q :
  do_detach q <> 0 -> 0 < fork e ->
  detach e q
  = (Halt, run (exec_actions e (detach_parent (after_fork e q)))
               (after_fork e q)).
Proof.
  intros Hd Hf. unfold detach, after_fork, run, bind, get.
  destruct (Z.eqb_spec (do_detach q) 0) as [|_]; [contradiction|].
  cbn [negb]. unfold modify, emit, modify.
  destruct (Z.ltb_spec (fork e) 0) as [|_]; [lia|].
  destruct (Z.eqb_spec (fork e) 0) as [|_]; [lia|].
  cbn [negb]. destruct q; reflexivity.
Qed.

(** SIGCHLD on a process that has it bound to [parent_exit] and runs no
    handler. *)
Lemma sigchld_ends e m :
  st (mproc m) = Running -> frames m = [] ->
  sigtable (mproc m) SIGCHLD = Handler H_parent_exit ->
  let m' := steps e [Deliver SIGCHLD; Tick] m in
  st (mproc m') = Exited 0 /\ ~ failure (st (mproc m')).
Proof.
  intros Hst Hfr Hc. cbv zeta.
  assert (Hno : ~ failure (Exited 0)).
  { intros (x & Hx & Hnz). injection Hx as <-. now apply Hnz. }
  assert (H : st (mproc (steps e [Deliver SIGCHLD; Tick] m)) = Exited 0).
  { unfold steps. cbn [fold_left]. unfold step at 2, blocked, dispose.
    rewrite Hst, Hfr, Hc. cbn [existsb]. unfold enter.
    cbn [handler_body parent_exit].
    set (fr := frames (if asleep m then _ else m)).
    set (k := cont (if asleep m then _ else m)).
    clearbody fr k.
    destruct m as [p fr0 k0 sl pd]. cbn [mproc pending] in *.
    destruct p. cbn [st] in Hst. subst st0. reflexivity. }
  rewrite H. auto.
Qed.

(** C7 (the code departs from it): in the parent of the fork, [main] is the
    code of [detach] behind the fork, run to its end: the parent binds
    SIGTERM to [parent_exit], sleeps 600 seconds and exits with status 1
    when the sleep runs out. SIGTERM during the sleep makes it exit with
    status 0. SIGCHLD is bound to the same [parent_exit] by [setup_signals]
    before the fork: when the child dies, before the parent has called
    signal(), before it sleeps or during the sleep, the parent exits with
    status 0, which tells the shell of no failure. *)
Theorem C7_supervisor_parent
    (e : env) (argv : list string) (p : proc) :
  st p = Running ->
  kill_tincd p = 0 ->
  read_config_file_ret e = 0 ->
  do_detach p <> 0 ->
  0 < fork e ->
  let q := after_fork e (before_detach e argv p) in
  let registered := step e Tick (supervisor q) in
  let sleeping := step e Tick registered in
  main_root e argv p = (Halt, mproc (steps e [Tick; Tick] sleeping))
  /\ sigtable (mproc registered) SIGTERM = Handler H_parent_exit
  /\ asleep sleeping = true
  /\ (let m := steps e [Tick; Tick] sleeping in
      st (mproc m) = Exited 1 /\ news q (mproc m) = [Sleep 600])
  /\ (let m := steps e [Deliver SIGTERM; Tick] sleeping in
      st (mproc m) = Exited 0 /\ news q (mproc m) = [Sleep 600])
  /\ Forall (fun m =>
               let m' := steps e [Deliver SIGCHLD; Tick] m in
               st (mproc m') = Exited 0 /\ ~ failure (st (mproc m')))
            [supervisor q; registered; sleeping].
Proof.
  intros Hst Hk Hconf Hd Hfork. cbv zeta.
  destruct (before_detach_fields e argv p) as (_ & _ & Hd' & _ & _ & Hst').
  cbv zeta in Hd', Hst'.
  destruct (before_detach_image e argv p) as (Htab & _ & _).
  destruct (setup_signals_binds p) as (_ & _ & _ & _ & _ & _ & _ & Hchld & _).
  cbv zeta in Hchld. rewrite <- Htab in Hchld.
  rewrite (main_root_at_detach e argv p Hk Hconf).
  set (bd := before_detach e argv p) in *. clearbody bd.
  rewrite <- Hd' in Hd. rewrite <- Hst' in Hst. clear Hd' Hst' Htab p Hk.
  rewrite (bind_halt _ _ _ _ (detach_in_parent e bd Hd Hfork)).
  assert (Hq : st (after_fork e bd) = Running
               /\ sigtable (after_fork e bd) SIGCHLD = Handler H_parent_exit)
    by (destruct bd; cbn in *; auto).
  destruct Hq as [Hrun Hc].
  set (q := after_fork e bd) in *. clearbody q. clear Hd Hst Hchld bd.
  destruct q. cbn [st sigtable] in *. subst st0.
  unfold supervisor, detach_parent.
  split; [reflexivity|]. split; [reflexivity|]. split; [reflexivity|].
  split; [cbn; unfold news; cbn [trace]; rewrite skipn_length_app; auto|].
  split; [cbn; unfold news; cbn [trace]; rewrite skipn_length_app; auto|].
  repeat apply Forall_cons; try apply Forall_nil;
    apply sigchld_ends; try reflexivity; exact Hc.
Qed.

Lemma C7_supervisor_parent_witness :
  let q := after_fork e_parent
             (before_detach e_parent ["tincd"]%string (start no_files)) in
  let registered := step e_parent Tick (supervisor q) in
  let sleeping := step e_parent Tick registered in
  main_root e_parent ["tincd"]%string (start no_files)
  = (Halt, mproc (steps e_parent [Tick; Tick] sleeping))
  /\ sigtable (mproc registered) SIGTERM = Handler H_parent_exit
  /\ asleep sleeping = true
  /\ (let m := steps e_parent [Tick; Tick] sleeping in
      st (mproc m) = Exited 1 /\ news q (mproc m) = [Sleep 600])
  /\ (let m := steps e_parent [Deliver SIGTERM; Tick] sleeping in
      st (mproc m) = Exited 0 /\ news q (mproc m) = [Sleep 600])
  /\ Forall (fun m =>
               let m' := steps e_parent [Deliver SIGCHLD; Tick] m in
               st (mproc m') = Exited 0 /\ ~ failure (st (mproc m')))
            [supervisor q; registered; sleeping].
Proof.
  apply (C7_supervisor_parent e_parent ["tincd"]%string (start no_files)).
  - reflexivity.
  - reflexivity.
  - reflexivity.
  - vm_compute. discriminate.
  - vm_compute. reflexivity.
Defined.

End SignalFacts.
